(** * The slot scheduling model and the ownership-based permission
    predicates of [vbb_backend.program.models]

    The development follows [src/vbb_backend/program/models.py].  Database
    tables are finite maps from primary key to row, model methods that touch
    the database are computations in a small state-and-exception monad, and
    Python exceptions are values of the type [Exception]. *)

From stdpp Require Import base gmap strings list fin_maps.
From Stdlib Require Import ZArith.

Local Open Scope Z_scope.

(** ** Python's [datetime] values, as far as the models use them *)

Module PyDatetime.

Record date := mkdate { year : Z; month : Z; day : Z }.

Record datetime := mkdatetime {
  dt_date : date;
  hour : Z;
  minute : Z;
  second : Z;
  microsecond : Z }.

#[global] Instance date_eq_dec : EqDecision date.
Proof. solve_decision. Defined.

#[global] Instance datetime_eq_dec : EqDecision datetime.
Proof. solve_decision. Defined.

(** [datetime._is_leap] *)
Definition _is_leap (y : Z) : bool :=
  (y mod 4 =? 0) && (negb (y mod 100 =? 0) || (y mod 400 =? 0)).

(** [datetime._days_before_year]: days before January 1st of [y]. *)
Definition _days_before_year (y : Z) : Z :=
  let y1 := y - 1 in
  y1 * 365 + y1 / 4 - y1 / 100 + y1 / 400.

(** The table [_DAYS_BEFORE_MONTH], indexed by the months 1 to 12; its
    entry at index 0 is the placeholder -1. *)
Definition _DAYS_BEFORE_MONTH (m : Z) : Z :=
  match m with
  | 1 => 0 | 2 => 31 | 3 => 59 | 4 => 90 | 5 => 120 | 6 => 151
  | 7 => 181 | 8 => 212 | 9 => 243 | 10 => 273 | 11 => 304 | 12 => 334
  | _ => -1
  end.

(** [datetime._days_before_month] *)
Definition _days_before_month (y m : Z) : Z :=
  _DAYS_BEFORE_MONTH m + (if (2 <? m) && _is_leap y then 1 else 0).

(** [datetime._ymd2ord] and [date.toordinal] *)
Definition _ymd2ord (y m d : Z) : Z :=
  _days_before_year y + _days_before_month y m + d.

Definition toordinal (d : date) : Z := _ymd2ord (year d) (month d) (day d).

(** [date.weekday]: Monday is 0, Sunday is 6. *)
Definition weekday (d : date) : Z := (toordinal d + 6) mod 7.

(** Lexicographic comparison of two component lists, as Python compares
    the tuples [(year, month, day, hour, minute, second, microsecond)]. *)
Fixpoint cmp_components (xs ys : list Z) : comparison :=
  match xs, ys with
  | [], [] => Eq
  | [], _ :: _ => Lt
  | _ :: _, [] => Gt
  | x :: xs', y :: ys' =>
      match x ?= y with
      | Eq => cmp_components xs' ys'
      | c => c
      end
  end.

Definition components (t : datetime) : list Z :=
  [year (dt_date t); month (dt_date t); day (dt_date t);
   hour t; minute t; second t; microsecond t].

(** [datetime._cmp] *)
Definition _cmp (a b : datetime) : comparison :=
  cmp_components (components a) (components b).

(** [a < b] and [a > b] on datetimes, which is also what the lookups
    [__lt] and [__gt] of a queryset compare. *)
Definition dt_lt (a b : datetime) : bool :=
  match _cmp a b with Lt => true | _ => false end.

Definition dt_gt (a b : datetime) : bool :=
  match _cmp a b with Gt => true | _ => false end.

(** [datetime.fromisoformat] on a string of the shape
    [YYYY-MM-DD HH:MM:SS], given already split into its numbers. *)
Definition at_ (y mo d h mi : Z) : datetime :=
  mkdatetime (mkdate y mo d) h mi 0 0.

End PyDatetime.

Import PyDatetime.

(** ** Exceptions and the two monads of the model *)

(** The exceptions that the modelled code can raise: the REST framework's
    [ValidationError] carrying a one-entry detail dictionary, Python's
    [AttributeError] and [KeyError], and Django's [DoesNotExist],
    [MultipleObjectsReturned] and [ProtectedError]. *)
Inductive Exception :=
  | ValidationError (key message : string)
  | AttributeError (attribute : string)
  | KeyError (key : string)
  | DoesNotExist
  | MultipleObjectsReturned
  | ProtectedError.

#[global] Instance Exception_eq_dec : EqDecision Exception.
Proof. solve_decision. Defined.

(** A computation that only reads: it returns a value or raises. *)
Definition Result (A : Type) : Type := Exception + A.

#[global] Instance Result_ret : MRet Result := λ A x, inr x.
#[global] Instance Result_bind : MBind Result := λ A B f m,
  match m with
  | inl e => inl e
  | inr x => f x
  end.
#[global] Instance Result_throw : MThrow Exception Result := λ A e, inl e.

(** ** The rows of the tables *)

(** A user of [users.User], reduced to what the permission checks read. *)
Record User := mkUser {
  user_pk : Z;
  user_is_superuser : bool }.

(** [request.user] is an authenticated [User] or Django's [AnonymousUser]. *)
Inductive RequestUser :=
  | AnonymousUser
  | Authenticated (u : User).

(** [request.user.is_superuser]; [AnonymousUser.is_superuser] is [False]. *)
Definition is_superuser (u : RequestUser) : bool :=
  match u with
  | AnonymousUser => false
  | Authenticated u => user_is_superuser u
  end.

(** [request.user == director] where [director] is the value of a nullable
    foreign key to [users.User].  Model instances are equal when their
    primary keys are; nothing equals [None], and an [AnonymousUser] equals no
    [User]. *)
Definition user_eq (u : RequestUser) (director : option Z) : bool :=
  match u, director with
  | Authenticated u, Some d => bool_decide (user_pk u = d)
  | _, _ => false
  end.

(** A request, reduced to [request.user] and
    [request.parser_context["kwargs"]].  The keyword arguments that are
    present hold well-formed identifiers, given as numbers; an identifier
    that does not parse is not part of this model. *)
Record Request := mkRequest {
  user : RequestUser;
  parser_kwargs : gmap string Z }.

(** [Program]; [external_id] is inherited from [BaseUUIDModel]. *)
Record Program := mkProgram {
  program_external_id : Z;
  program_name : string;
  time_zone : string;
  calendar_id : option string;
  whatsapp_group : option string;
  announcements_group : option string;
  collaboration_group : option string;
  program_director : option Z;
  village_info_link : option string;
  default_language : string }.

(** [Computer]; the foreign key [program] is not nullable. *)
Record Computer := mkComputer {
  computer_external_id : Z;
  computer_program : Z;
  computer_number : option Z;
  computer_email : option string;
  room_id : option string }.

(** [School]; the coordinates are [DecimalField]s with six decimal places,
    kept here in millionths of a degree. *)
Record School := mkSchool {
  school_external_id : Z;
  school_name : string;
  school_program : option Z;
  longitude : Z;
  latitude : Z }.

(** [StudentSlotAssociation]: both foreign keys are nullable. *)
Record StudentSlotAssociation := mkAssociation {
  student : option Z;
  slot : option Z }.

(** [Slot]; [slot_pk] is [None] for an object that was never saved, and so
    is [start_date], which every [save] sets. *)
Record Slot := mkSlot {
  slot_pk : option Z;
  computer : option Z;
  language : string;
  schedule_start : datetime;
  schedule_end : datetime;
  start_date : option date;
  end_date : option date;
  event_id : option string;
  hangouts_link : option string;
  max_students : Z;
  assigned_students : Z;
  is_mentor_assigned : bool;
  is_student_assigned : bool }.

#[global] Instance Slot_eq_dec : EqDecision Slot.
Proof. solve_decision. Defined.

(** [Slot.DEAFULT_INIT_DATE], the first Monday of the year 2000. *)
Definition DEAFULT_INIT_DATE : datetime := at_ 2000 1 3 0 0.

Definition set_slot_pk (k : Z) (s : Slot) : Slot :=
  mkSlot (Some k) (computer s) (language s) (schedule_start s)
    (schedule_end s) (start_date s) (end_date s) (event_id s)
    (hangouts_link s) (max_students s) (assigned_students s)
    (is_mentor_assigned s) (is_student_assigned s).

Definition set_start_date (d : date) (s : Slot) : Slot :=
  mkSlot (slot_pk s) (computer s) (language s) (schedule_start s)
    (schedule_end s) (Some d) (end_date s) (event_id s)
    (hangouts_link s) (max_students s) (assigned_students s)
    (is_mentor_assigned s) (is_student_assigned s).

Definition set_computer (c : option Z) (s : Slot) : Slot :=
  mkSlot (slot_pk s) c (language s) (schedule_start s)
    (schedule_end s) (start_date s) (end_date s) (event_id s)
    (hangouts_link s) (max_students s) (assigned_students s)
    (is_mentor_assigned s) (is_student_assigned s).

(** [Slot(computer=..., language=..., schedule_start=..., schedule_end=...)]:
    a new object, every other field at its declared default
    ([max_students] 1, [assigned_students] 0, both flags [False]). *)
Definition new_Slot (c : option Z) (lang : string) (t0 t1 : datetime) : Slot :=
  mkSlot None c lang t0 t1 None None None None 1 0 false false.

(** ** The database *)

(** Tables map primary keys to rows; [slot_seq] is the next primary key
    that the database hands out for a [Slot]. *)
Record DB := mkDB {
  programs : gmap Z Program;
  computers : gmap Z Computer;
  slots : gmap Z Slot;
  associations : gmap Z StudentSlotAssociation;
  slot_seq : Z }.

Definition empty_DB : DB := mkDB ∅ ∅ ∅ ∅ 1.

Definition set_slots (m : gmap Z Slot) (q : Z) (db : DB) : DB :=
  mkDB (programs db) (computers db) m (associations db) q.

Definition set_computers (m : gmap Z Computer) (db : DB) : DB :=
  mkDB (programs db) m (slots db) (associations db) (slot_seq db).

Definition set_associations (m : gmap Z StudentSlotAssociation) (db : DB) : DB :=
  mkDB (programs db) (computers db) (slots db) m (slot_seq db).

(** A computation that may read and write the database, and may raise. *)
Definition M (A : Type) : Type := DB → Result A * DB.

#[global] Instance M_ret : MRet M := λ A x db, (inr x, db).
#[global] Instance M_bind : MBind M := λ A B f m db,
  match m db with
  | (inl e, db') => (inl e, db')
  | (inr x, db') => f x db'
  end.
#[global] Instance M_throw : MThrow Exception M := λ A e db, (inl e, db).

Definition get_db : M DB := λ db, (inr db, db).
Definition put_db (db' : DB) : M unit := λ _, (inr tt, db').

(** The rows of a table, as a queryset iterates over them. *)
Definition rows {A} (t : gmap Z A) : list A := (map_to_list t).*2.

(** ** [Slot.save] *)

(** The three lookups of the queryset in [Slot.save]:
    [computer=self.computer], [schedule_end__gt=self.schedule_start] and
    [schedule_start__lt=self.schedule_end].  An exact lookup against [None]
    is an [IS NULL] test, so a slot without a computer is compared with the
    other slots without a computer. *)
Definition conflict_lookup (self row : Slot) : bool :=
  bool_decide (computer row = computer self)
  && dt_gt (schedule_end row) (schedule_start self)
  && dt_lt (schedule_start row) (schedule_end self).

(** [Slot.objects.filter(...).exists()] *)
Definition Slot_objects_exists (p : Slot → bool) : M bool :=
  db ← get_db; mret (existsb p (rows (slots db))).

(** [models.Model.save] on a [Slot]: [start_date] is [auto_now], so it is
    set to today's date; an object without a primary key is inserted under
    the next key of the sequence, an object with one replaces the row of
    that key or is inserted under it.  The row is taken to be one that the
    database accepts: the errors that a database raises for other rows (a
    computer that is not stored, an integer out of the column's range) are
    not part of this model. *)
Definition Model_save (today : date) (self : Slot) : M Slot :=
  db ← get_db;
  let self := set_start_date today self in
  match slot_pk self with
  | None =>
      let k := slot_seq db in
      let self := set_slot_pk k self in
      _ ← put_db (set_slots (<[k := self]> (slots db)) (k + 1) db);
      mret self
  | Some k =>
      _ ← put_db (set_slots (<[k := self]> (slots db))
                    (Z.max (slot_seq db) (k + 1)) db);
      mret self
  end.

(** [Slot.save]: the conflict query, then the inherited [save]. *)
Definition Slot_save (today : date) (self : Slot) : M Slot :=
  found ← Slot_objects_exists (conflict_lookup self);
  if (found : bool)
  then mthrow (ValidationError "schedule" "Conflict Found")
  else Model_save today self.

(** ** Deletion and the [on_delete] rules of the foreign keys *)

Inductive OnDelete := CASCADE | PROTECT | SET_NULL.

(** [Slot.computer] is declared with [on_delete=models.PROTECT], and
    [StudentSlotAssociation.slot] with [on_delete=models.SET_NULL]. *)
Definition Slot_computer_on_delete : OnDelete := PROTECT.
Definition StudentSlotAssociation_slot_on_delete : OnDelete := SET_NULL.

Definition set_association_slot (v : option Z) (a : StudentSlotAssociation)
  : StudentSlotAssociation := mkAssociation (student a) v.

(** What deleting the row [k] does to a table of rows that refer to it
    through the foreign key [fk] (written back by [set_fk]), by the rule of
    that key: [None] when the deletion is refused. *)
Definition on_delete_apply {A} (rule : OnDelete) (fk : A → option Z)
    (set_fk : option Z → A → A) (k : Z) (t : gmap Z A) : option (gmap Z A) :=
  match rule with
  | CASCADE => Some (filter (λ kv, fk kv.2 ≠ Some k) t)
  | SET_NULL =>
      Some ((λ r, if decide (fk r = Some k) then set_fk None r else r) <$> t)
  | PROTECT =>
      if existsb (λ r, bool_decide (fk r = Some k)) (rows t)
      then None else Some t
  end.

(** [Slot.delete], the inherited [models.Model.delete] on the slot of
    primary key [k]: the referring associations are handled by their rule,
    then the row is removed.  The result is the number of slots deleted. *)
Definition Slot_delete (k : Z) : M Z :=
  db ← get_db;
  match on_delete_apply StudentSlotAssociation_slot_on_delete
          slot set_association_slot k (associations db) with
  | None => mthrow ProtectedError
  | Some assoc' =>
      _ ← put_db (set_associations assoc'
                    (set_slots (delete k (slots db)) (slot_seq db) db));
      mret (match slots db !! k with Some _ => 1 | None => 0 end)
  end.

(** [Computer.delete] on the computer of primary key [k]. *)
Definition Computer_delete (k : Z) : M Z :=
  db ← get_db;
  match on_delete_apply Slot_computer_on_delete
          computer set_computer k (slots db) with
  | None => mthrow ProtectedError
  | Some slots' =>
      _ ← put_db (set_computers (delete k (computers db))
                    (set_slots slots' (slot_seq db) db));
      mret (match computers db !! k with Some _ => 1 | None => 0 end)
  end.

(** ** Sequences of saves and deletions *)

(** One request against the slot table: saving a slot object (a creation
    when the object has no primary key yet) or deleting the slot of a key. *)
Inductive Op :=
  | OpSave (today : date) (self : Slot)
  | OpDelete (k : Z).

(** The database after the operation; an operation that raises leaves
    behind whatever it had written before raising. *)
Definition step (db : DB) (op : Op) : DB :=
  match op with
  | OpSave today self => (Slot_save today self db).2
  | OpDelete k => (Slot_delete k db).2
  end.

Definition run (ops : list Op) (db : DB) : DB := foldl step db ops.

(** [row] is in conflict with [self] under the rule of [Slot.save]:
    [row.schedule_end > self.schedule_start] and
    [row.schedule_start < self.schedule_end]. *)
Definition overlaps (row self : Slot) : Prop :=
  dt_gt (schedule_end row) (schedule_start self) = true
  ∧ dt_lt (schedule_start row) (schedule_end self) = true.

(** No two rows of the slot table, on the same computer, overlap. *)
Definition no_overlap (db : DB) : Prop :=
  ∀ i j a b,
    i ≠ j → slots db !! i = Some a → slots db !! j = Some b →
    computer a = computer b → ¬ overlaps a b.

(** Every stored slot carries its key, and the sequence is ahead of every
    key in use, so that a creation never lands on a stored row. *)
Definition keys_below_seq (db : DB) : Prop :=
  ∀ k row, slots db !! k = Some row → slot_pk row = Some k ∧ k < slot_seq db.

(** ** The weekly breakdown of a slot *)

Definition start_day_of_the_week (self : Slot) : Z :=
  weekday (dt_date (schedule_start self)).
Definition end_day_of_the_week (self : Slot) : Z :=
  weekday (dt_date (schedule_end self)).
Definition start_hour (self : Slot) : Z := hour (schedule_start self).
Definition end_hour (self : Slot) : Z := hour (schedule_end self).
Definition start_minute (self : Slot) : Z := minute (schedule_start self).
Definition end_minute (self : Slot) : Z := minute (schedule_end self).

(** Weekday and time of day of a timestamp, everything but the week it
    lies in. *)
Definition weekly (t : datetime) : Z * (Z * Z * Z * Z) :=
  (weekday (dt_date t), (hour t, minute t, second t, microsecond t)).

(** ** The permission predicates *)

(** [request.parser_context["kwargs"][key]] *)
Definition kwarg (request : Request) (key : string) : Result Z :=
  match parser_kwargs request !! key with
  | Some v => mret v
  | None => mthrow (KeyError key)
  end.

(** [Model.objects.get(external_id=x)] *)
Definition objects_get {A} (external_id : A → Z) (t : gmap Z A) (x : Z)
  : Result A :=
  match filter (λ r, external_id r = x) (rows t) with
  | [] => mthrow DoesNotExist
  | [r] => mret r
  | _ => mthrow MultipleObjectsReturned
  end.

(** The attribute [program] of a [Computer] or a [School], and the
    attribute [computer] of a [Slot]: the row the foreign key refers to, or
    [None] for a null key. *)
Definition related {A} (t : gmap Z A) (k : Z) : Result A :=
  match t !! k with
  | Some r => mret r
  | None => mthrow DoesNotExist
  end.

Definition related_nullable {A} (t : gmap Z A) (k : option Z)
  : Result (option A) :=
  match k with
  | Some k => r ← related t k; mret (Some r)
  | None => mret None
  end.

(** [obj.name] on a value that may be [None]. *)
Definition getattr {A B} (name : string) (obj : option A) (f : A → Result B)
  : Result B :=
  match obj with
  | Some o => f o
  | None => mthrow (AttributeError name)
  end.

Module ProgramPerm.
Definition has_create_permission (request : Request) : bool :=
  is_superuser (user request).
Definition has_write_permission (request : Request) : bool := true.
Definition has_read_permission (request : Request) : bool := true.
Definition has_object_write_permission (self : Program) (request : Request)
  : bool :=
  is_superuser (user request)
  || user_eq (user request) (program_director self).
Definition has_object_update_permission := has_object_write_permission.
Definition has_object_read_permission := has_object_write_permission.
End ProgramPerm.

(** [request.user.is_superuser or request.user == p.program_director] with
    [p] still to be fetched: [or] does not evaluate its right operand when
    the left one is true. *)
Definition superuser_or_director (request : Request) (p : Result Program)
  : Result bool :=
  if is_superuser (user request) then mret true
  else p ← p; mret (user_eq (user request) (program_director p)).

Module SchoolPerm.
Definition has_create_permission (db : DB) (request : Request)
  : Result bool :=
  x ← kwarg request "program_external_id";
  program ← objects_get program_external_id (programs db) x;
  superuser_or_director request (mret program).
Definition has_write_permission (request : Request) : bool := true.
Definition has_read_permission (request : Request) : bool := true.
Definition has_object_write_permission (db : DB) (self : School)
    (request : Request) : Result bool :=
  superuser_or_director request
    (p ← related_nullable (programs db) (school_program self);
     getattr "program_director" p mret).
Definition has_object_update_permission := has_object_write_permission.
Definition has_object_read_permission := has_object_write_permission.
End SchoolPerm.

Module ComputerPerm.
Definition has_create_permission (db : DB) (request : Request)
  : Result bool :=
  x ← kwarg request "program_external_id";
  program ← objects_get program_external_id (programs db) x;
  superuser_or_director request (mret program).
Definition has_write_permission (request : Request) : bool := true.
Definition has_read_permission (request : Request) : bool := true.
Definition has_object_write_permission (db : DB) (self : Computer)
    (request : Request) : Result bool :=
  superuser_or_director request
    (related (programs db) (computer_program self)).
Definition has_object_update_permission := has_object_write_permission.
Definition has_object_read_permission := has_object_write_permission.
End ComputerPerm.

Module SlotPerm.
Definition has_create_permission (db : DB) (request : Request)
  : Result bool :=
  x ← kwarg request "computer_external_id";
  computer ← objects_get computer_external_id (computers db) x;
  superuser_or_director request
    (related (programs db) (computer_program computer)).
Definition has_write_permission (request : Request) : bool := true.
Definition has_read_permission (request : Request) : bool := true.
Definition has_object_write_permission (db : DB) (self : Slot)
    (request : Request) : Result bool :=
  superuser_or_director request
    (c ← related_nullable (computers db) (computer self);
     getattr "program" c
       (λ c, related (programs db) (computer_program c))).
Definition has_object_update_permission := has_object_write_permission.
Definition has_object_read_permission := has_object_write_permission.
End SlotPerm.

(** A permission is granted when the predicate returns [True]; when it
    returns [False] or raises, it is not. *)
Definition granted (r : Result bool) : Prop := r = inr true.

(** ** The capacity tracker *)

Definition set_max_students (n : Z) (s : Slot) : Slot :=
  mkSlot (slot_pk s) (computer s) (language s) (schedule_start s)
    (schedule_end s) (start_date s) (end_date s) (event_id s)
    (hangouts_link s) n (assigned_students s)
    (is_mentor_assigned s) (is_student_assigned s).

Definition set_assigned (n : Z) (flag : bool) (s : Slot) : Slot :=
  mkSlot (slot_pk s) (computer s) (language s) (schedule_start s)
    (schedule_end s) (start_date s) (end_date s) (event_id s)
    (hangouts_link s) (max_students s) n
    (is_mentor_assigned s) flag.

Module CapacityTracker.

Inductive Error := CapacityExceededError | InvalidStateError.

(** Modelled from the spec: the repository's code that assigns a student
    to a slot is not among the sources, which only declare the fields
    [max_students] and [assigned_students].  The spec gives
    [assignStudent(slot) -> Slot or fails with CapacityExceededError when
    assigned_students == max_students.  On success increments
    assigned_students and sets is_student_assigned = true]. *)
Definition assignStudent (s : Slot) : Error + Slot :=
  if bool_decide (assigned_students s = max_students s)
  then inl CapacityExceededError
  else inr (set_assigned (assigned_students s + 1) true s).

(** [n] calls in a row, each on the slot the call before returned; the
    first failure ends the run. *)
Fixpoint assign_times (n : nat) (s : Slot) : Error + Slot :=
  match n with
  | O => inr s
  | S n' =>
      match assignStudent s with
      | inl e => inl e
      | inr s' => assign_times n' s'
      end
  end.

(** Invariant 2 of the spec. *)
Definition within_capacity (s : Slot) : Prop :=
  0 ≤ assigned_students s ≤ max_students s.

End CapacityTracker.

(** ** Concrete slots and databases used in the examples *)




Definition today0 : date := mkdate 2021 3 1.

(** Monday 3 January 2000, on computer 1. *)
Definition monday_10_12 : Slot :=
  new_Slot (Some 1) "ENGLISH" (at_ 2000 1 3 10 0) (at_ 2000 1 3 12 0).
Definition monday_11_13 : Slot :=
  new_Slot (Some 1) "ENGLISH" (at_ 2000 1 3 11 0) (at_ 2000 1 3 13 0).
Definition monday_12_14 : Slot :=
  new_Slot (Some 1) "ENGLISH" (at_ 2000 1 3 12 0) (at_ 2000 1 3 14 0).

(** Monday 1 January 2001, 11:00 to 13:00, on computer 1. *)
Definition monday_11_13_in_2001 : Slot :=
  new_Slot (Some 1) "ENGLISH" (at_ 2001 1 1 11 0) (at_ 2001 1 1 13 0).

(** A span that runs backwards, an empty one, and one of two days. *)
Definition monday_12_10 : Slot :=
  new_Slot (Some 1) "ENGLISH" (at_ 2000 1 3 12 0) (at_ 2000 1 3 10 0).

(** The database after [monday_10_12] was saved into the empty one. *)
Definition db_monday : DB := (Slot_save today0 monday_10_12 empty_DB).2.

(** One program directed by user 7, with computer 1 (external id 100). *)
Definition program1 : Program :=
  mkProgram 500 "Village" "UTC" None None None None (Some 7) None "ENGLISH".
Definition computer1 : Computer := mkComputer 100 1 (Some 1) None None.

Definition db_village : DB :=
  mkDB {[ 1 := program1 ]} {[ 1 := computer1 ]} (slots db_monday) ∅ 2.

Definition director : User := mkUser 7 false.
Definition stranger : User := mkUser 8 false.
Definition admin : User := mkUser 9 true.

Definition request_of (u : RequestUser) : Request :=
  mkRequest u {[ "computer_external_id" := 100 ]}.

(** [request.user] is the director of the program [p]. *)
Definition is_director (request : Request) (p : Program) : Prop :=
  ∃ u, user request = Authenticated u ∧ program_director p = Some (user_pk u).

(** A slot of computer 1 that was never saved, and one without computer. *)
Definition orphan : Slot := set_computer None monday_10_12.

(** A slot declared with a negative capacity. *)
Definition negative_capacity : Slot := set_max_students (-1) monday_10_12.

(** ** Classrooms, libraries and the deletion of a program *)

(** [Classroom]: the foreign key [school] is nullable. *)
Record Classroom := mkClassroom {
  classroom_external_id : Z;
  classroom_name : option string;
  classroom_school : option Z }.

(** [Library]: the foreign key [program] is nullable. *)
Record Library := mkLibrary {
  library_external_id : Z;
  library_name : option string;
  library_program : option Z;
  library_longitude : Z;
  library_latitude : Z }.

(** The database together with the tables of schools, classrooms and
    libraries. *)
Record Campus := mkCampus {
  campus_db : DB;
  schools : gmap Z School;
  classrooms : gmap Z Classroom;
  libraries : gmap Z Library }.

Module ClassroomPerm.
Definition has_create_permission (db : DB) (schools : gmap Z School)
    (request : Request) : Result bool :=
  x ← kwarg request "school_external_id";
  school ← objects_get school_external_id schools x;
  superuser_or_director request
    (p ← related_nullable (programs db) (school_program school);
     getattr "program_director" p mret).
Definition has_write_permission (request : Request) : bool := true.
Definition has_read_permission (request : Request) : bool := true.
Definition has_object_write_permission (db : DB) (schools : gmap Z School)
    (self : Classroom) (request : Request) : Result bool :=
  superuser_or_director request
    (s ← related_nullable schools (classroom_school self);
     getattr "program" s
       (λ s, p ← related_nullable (programs db) (school_program s);
             getattr "program_director" p mret)).
Definition has_object_update_permission := has_object_write_permission.
Definition has_object_read_permission := has_object_write_permission.
End ClassroomPerm.

(** [Computer.program] is declared with [on_delete=models.PROTECT];
    [School.program], [Library.program] and [Classroom.school] with
    [on_delete=models.SET_NULL]. *)
Definition Computer_program_on_delete : OnDelete := PROTECT.
Definition School_program_on_delete : OnDelete := SET_NULL.
Definition Library_program_on_delete : OnDelete := SET_NULL.
Definition Classroom_school_on_delete : OnDelete := SET_NULL.

Definition set_programs (m : gmap Z Program) (db : DB) : DB :=
  mkDB m (computers db) (slots db) (associations db) (slot_seq db).

Definition set_school_program (v : option Z) (s : School) : School :=
  mkSchool (school_external_id s) (school_name s) v (longitude s) (latitude s).

Definition set_library_program (v : option Z) (l : Library) : Library :=
  mkLibrary (library_external_id l) (library_name l) v
    (library_longitude l) (library_latitude l).

(** The key [program] of a computer cannot be null: only a program is
    written to it. *)
Definition set_computer_program (v : option Z) (c : Computer) : Computer :=
  match v with
  | Some p =>
      mkComputer (computer_external_id c) p (computer_number c)
        (computer_email c) (room_id c)
  | None => c
  end.

(** [Program.delete] on the program of primary key [k], with the foreign
    keys to [Program] that this module declares: the rows that refer to the
    program are collected rule by rule, and nothing is written when a rule
    refuses. *)
Definition Program_delete (k : Z) (w : Campus) : Result Z * Campus :=
  let db := campus_db w in
  match
    on_delete_apply Computer_program_on_delete
      (λ c, Some (computer_program c)) set_computer_program k (computers db),
    on_delete_apply School_program_on_delete
      school_program set_school_program k (schools w),
    on_delete_apply Library_program_on_delete
      library_program set_library_program k (libraries w)
  with
  | Some computers', Some schools', Some libraries' =>
      (inr (match programs db !! k with Some _ => 1 | None => 0 end),
       mkCampus
         (set_programs (delete k (programs db)) (set_computers computers' db))
         schools' (classrooms w) libraries')
  | _, _, _ => (inl ProtectedError, w)
  end.

(** Every computer a slot refers to is stored, and so is the program of
    every computer. *)
Definition slot_computers_exist (db : DB) : Prop :=
  ∀ j row kc, slots db !! j = Some row → computer row = Some kc →
              is_Some (computers db !! kc).

Definition computer_programs_exist (db : DB) : Prop :=
  ∀ k c, computers db !! k = Some c →
         is_Some (programs db !! computer_program c).

(** ** Instants and the reference week *)

(** [a <= b] on datetimes. *)
Definition dt_le (a b : datetime) : bool := negb (dt_lt b a).

(** The instant [t] lies in the half-open window of the slot. *)
Definition in_slot (t : datetime) (s : Slot) : Prop :=
  dt_le (schedule_start s) t = true ∧ dt_lt t (schedule_end s) = true.

(** The slot ends after it starts. *)
Definition proper (s : Slot) : Prop :=
  dt_lt (schedule_start s) (schedule_end s) = true.

(** The week that starts with [DEAFULT_INIT_DATE]: 3 to 9 January 2000. *)
Definition in_reference_week (t : datetime) : Prop :=
  year (dt_date t) = 2000 ∧ month (dt_date t) = 1 ∧ 3 ≤ day (dt_date t) ≤ 9.

(** The outcome of a [save] is the validation error "Conflict Found". *)
Definition refused (r : Result Slot * DB) : Prop :=
  r.1 = inl (ValidationError "schedule" "Conflict Found").

(** More rows for the examples: a school of program 1, a classroom of that
    school, and a second computer of program 1. *)
Definition school1 : School := mkSchool 300 "Primary" (Some 1) 0 0.
Definition classroom1 : Classroom := mkClassroom 400 (Some "Default") (Some 1).
Definition library1 : Library := mkLibrary 600 (Some "Books") (Some 1) 0 0.
Definition computer2 : Computer := mkComputer 101 1 (Some 2) None None.

Definition campus_village : Campus :=
  mkCampus db_village {[ 1 := school1 ]} {[ 1 := classroom1 ]}
    {[ 1 := library1 ]}.

(** Program 1 and its school, without any computer. *)
Definition campus_school_only : Campus :=
  mkCampus (mkDB {[ 1 := program1 ]} ∅ ∅ ∅ 1) {[ 1 := school1 ]}
    {[ 1 := classroom1 ]} {[ 1 := library1 ]}.

Definition tuesday_09_10 : Slot :=
  new_Slot (Some 1) "ENGLISH" (at_ 2000 1 4 9 0) (at_ 2000 1 4 10 0).
Definition monday_11_13_computer2 : Slot :=
  new_Slot (Some 2) "ENGLISH" (at_ 2000 1 3 11 0) (at_ 2000 1 3 13 0).

Definition association1 : StudentSlotAssociation := mkAssociation (Some 5) (Some 1).

(** [db_monday] with one student enrolled in its slot. *)
Definition db_enrolled : DB := set_associations {[ 1 := association1 ]} db_monday.

(** The database after the backwards slot [monday_12_10] was saved into
    the empty one, and the database after Monday 10:00 to 12:00 and then
    Tuesday 9:00 to 10:00 were saved for computer 1. *)
Definition db_backwards : DB := (Slot_save today0 monday_12_10 empty_DB).2.
Definition db_two_slots : DB := (Slot_save today0 tuesday_09_10 db_monday).2.

(** A program whose director is null, with computer 1 and the slot of
    [db_monday]. *)
Definition program_without_director_example : Program :=
  mkProgram 500 "Village" "UTC" None None None None None None "ENGLISH".
Definition db_without_director : DB :=
  mkDB {[ 1 := program_without_director_example ]} {[ 1 := computer1 ]}
    (slots db_monday) ∅ 2.

(** A school without program and a classroom without school. *)
Definition school_without_program : School := mkSchool 301 "Closed" None 0 0.
Definition classroom_without_school : Classroom :=
  mkClassroom 401 (Some "Default") None.

(** The order of two timestamps by weekday first and time of day second,
    read from [weekly] alone. *)
Definition weekly_components (w : Z * (Z * Z * Z * Z)) : list Z :=
  let '(d, (h, mi, sec, us)) := w in [d; h; mi; sec; us].

Definition weekly_lt (w w' : Z * (Z * Z * Z * Z)) : bool :=
  match cmp_components (weekly_components w) (weekly_components w') with
  | Lt => true
  | _ => false
  end.

(** * Properties *)

(** ** Comparison of timestamps *)

Section Comparison.

Lemma cmp_components_antisym xs ys :
  cmp_components ys xs = CompOpp (cmp_components xs ys).
Proof.
  revert ys; induction xs as [|x xs IH]; intros [|y ys]; simpl; try done.
  rewrite (Z.compare_antisym x y).
  destruct (x ?= y); simpl; auto.
Qed.

Lemma dt_gt_lt a b : dt_gt a b = dt_lt b a.
Proof.
  unfold dt_gt, dt_lt, _cmp.
  rewrite (cmp_components_antisym (components a) (components b)).
  by destruct (cmp_components _ _).
Qed.

Lemma cmp_components_refl xs : cmp_components xs xs = Eq.
Proof. induction xs as [|x xs IH]; simpl; [done|]. by rewrite Z.compare_refl. Qed.

Lemma dt_lt_irrefl a : dt_lt a a = false.
Proof. unfold dt_lt, _cmp. by rewrite cmp_components_refl. Qed.

End Comparison.

(** ** The conflict query *)

Section Query.

Lemma existsb_rows {A} (p : A → bool) (t : gmap Z A) :
  existsb p (rows t) = true ↔ ∃ k r, t !! k = Some r ∧ p r = true.
Proof.
  unfold rows. rewrite existsb_exists. split.
  - intros (r & Hin & Hp).
    apply list_elem_of_In, list_elem_of_fmap in Hin as ([k r'] & -> & Hkr).
    apply elem_of_map_to_list in Hkr. eauto.
  - intros (k & r & Hk & Hp). exists r. split; [|done].
    apply list_elem_of_In, list_elem_of_fmap. exists (k, r). split; [done|].
    by apply elem_of_map_to_list.
Qed.

Lemma conflict_lookup_true self row :
  conflict_lookup self row = true ↔
  computer row = computer self ∧ overlaps row self.
Proof.
  unfold conflict_lookup, overlaps.
  rewrite !andb_true_iff, bool_decide_eq_true. tauto.
Qed.

Lemma conflict_lookup_sym a b : conflict_lookup a b = conflict_lookup b a.
Proof.
  unfold conflict_lookup.
  rewrite !dt_gt_lt, (bool_decide_ext _ (computer a = computer b)) by done.
  destruct (bool_decide _), (dt_lt _ _), (dt_lt _ _); done.
Qed.

Lemma Slot_save_unfold today self db :
  Slot_save today self db =
    if existsb (conflict_lookup self) (rows (slots db))
    then (inl (ValidationError "schedule" "Conflict Found"), db)
    else Model_save today self db.
Proof.
  unfold Slot_save, Slot_objects_exists, mbind, M_bind, get_db, mret, M_ret.
  by destruct (existsb _ _).
Qed.

(** What the inherited [save] writes: the row lands under the key [k] of
    the returned object, and every other row is left alone. *)
Lemma Model_save_spec today self db :
  ∃ k,
    let self' := set_slot_pk k (set_start_date today self) in
    Model_save today self db
    = (inr self',
       set_slots (<[k := self']> (slots db))
         (match slot_pk self with
          | None => slot_seq db + 1
          | Some k => Z.max (slot_seq db) (k + 1)
          end) db)
    ∧ k = default (slot_seq db) (slot_pk self).
Proof.
  destruct self as [[k|] c l t0 t1 sd ed ev hl mx asg fm fs]; simpl.
  - exists k. done.
  - exists (slot_seq db). done.
Qed.

End Query.

(** ** Saving a slot *)

(** C1: [Slot.save] raises the validation error "Conflict Found" if and
    only if some stored slot on the same computer has
    [schedule_end > self.schedule_start] and
    [schedule_start < self.schedule_end]; that is its only failure, and it
    leaves the database as it was.  After Monday 10:00 to 12:00 was saved
    for a computer, Monday 11:00 to 13:00 on that computer is refused and
    Monday 12:00 to 14:00 is stored. *)
Theorem C1_save_conflict_iff (today : date) (db : DB) (self : Slot) :
  ((Slot_save today self db).1
     = inl (ValidationError "schedule" "Conflict Found")
   ↔ ∃ k row, slots db !! k = Some row
       ∧ computer row = computer self
       ∧ dt_gt (schedule_end row) (schedule_start self) = true
       ∧ dt_lt (schedule_start row) (schedule_end self) = true)
  ∧ (∀ e, (Slot_save today self db).1 = inl e →
       e = ValidationError "schedule" "Conflict Found"
       ∧ (Slot_save today self db).2 = db)
  ∧ slots db_monday !! 1
      = Some (set_slot_pk 1 (set_start_date today0 monday_10_12))
  ∧ Slot_save today monday_11_13 db_monday
      = (inl (ValidationError "schedule" "Conflict Found"), db_monday)
  ∧ (Slot_save today monday_12_14 db_monday).1
      = inr (set_slot_pk 2 (set_start_date today monday_12_14))
  ∧ slots (Slot_save today monday_12_14 db_monday).2 !! 2
      = Some (set_slot_pk 2 (set_start_date today monday_12_14)).
Proof.
  split_and!.
  - rewrite Slot_save_unfold.
    destruct (existsb _ _) eqn:Hq.
    + split; [intros _|done].
      apply existsb_rows in Hq as (k & row & Hk & Hc).
      apply conflict_lookup_true in Hc as (? & ? & ?). eauto 10.
    + destruct (Model_save_spec today self db) as (k & -> & _). simpl.
      split; [done|].
      intros (k' & row & Hk & Hc & Hgt & Hlt).
      assert (existsb (conflict_lookup self) (rows (slots db)) = true) as Hq'.
      { apply existsb_rows. exists k', row. split; [done|].
        apply conflict_lookup_true. done. }
      congruence.
  - intros e. rewrite Slot_save_unfold.
    destruct (existsb _ _); simpl.
    + intros [= <-]. done.
    + destruct (Model_save_spec today self db) as (k & -> & _). done.
  - vm_compute. reflexivity.
  - rewrite Slot_save_unfold.
    replace (existsb _ _) with true by (vm_compute; reflexivity). done.
  - rewrite Slot_save_unfold.
    replace (existsb _ _) with false by (vm_compute; reflexivity).
    reflexivity.
  - rewrite Slot_save_unfold.
    replace (existsb _ _) with false by (vm_compute; reflexivity).
    simpl. apply lookup_insert_eq.
Qed.

(** ** The invariant of the slot table *)

Section Invariant.

Lemma existsb_rows_false {A} (p : A → bool) (t : gmap Z A) k r :
  existsb p (rows t) = false → t !! k = Some r → p r = false.
Proof.
  intros Hq Hk. destruct (p r) eqn:Hp; [|done].
  assert (existsb p (rows t) = true) by (apply existsb_rows; eauto).
  congruence.
Qed.

Lemma no_overlap_empty : no_overlap empty_DB.
Proof. intros i j a b _ Hi. simpl in Hi. by rewrite lookup_empty in Hi. Qed.

(** A row that conflicts with none of the stored rows can be written
    under any key. *)
Lemma no_overlap_insert db k q row :
  no_overlap db →
  existsb (conflict_lookup row) (rows (slots db)) = false →
  no_overlap (set_slots (<[k := row]> (slots db)) q db).
Proof.
  intros Hinv Hq i j a b Hij Hi Hj Hc Hov. simpl in Hi, Hj.
  destruct (decide (i = k)) as [->|Hik], (decide (j = k)) as [->|Hjk];
    try done.
  - rewrite lookup_insert_eq in Hi. rewrite lookup_insert_ne in Hj by done.
    injection Hi as ->.
    pose proof (existsb_rows_false _ _ _ _ Hq Hj) as Hf.
    rewrite conflict_lookup_sym in Hf.
    assert (conflict_lookup b a = true) as Ht
      by (apply conflict_lookup_true; done).
    congruence.
  - rewrite lookup_insert_eq in Hj. rewrite lookup_insert_ne in Hi by done.
    injection Hj as ->.
    pose proof (existsb_rows_false _ _ _ _ Hq Hi) as Hf.
    assert (conflict_lookup b a = true) as Ht
      by (apply conflict_lookup_true; done).
    congruence.
  - rewrite lookup_insert_ne in Hi by done.
    rewrite lookup_insert_ne in Hj by done.
    by apply (Hinv i j a b).
Qed.

Lemma no_overlap_save today self db :
  no_overlap db → no_overlap (Slot_save today self db).2.
Proof.
  intros Hinv. rewrite Slot_save_unfold.
  destruct (existsb _ _) eqn:Hq; [done|].
  destruct (Model_save_spec today self db) as (k & -> & _). simpl.
  apply no_overlap_insert; [done|].
  exact Hq.
Qed.

Lemma Slot_delete_slots k db :
  slots (Slot_delete k db).2 = delete k (slots db).
Proof. done. Qed.

Lemma no_overlap_delete k db :
  no_overlap db → no_overlap (Slot_delete k db).2.
Proof.
  intros Hinv i j a b Hij Hi Hj.
  rewrite Slot_delete_slots in Hi, Hj.
  apply lookup_delete_Some in Hi as [_ Hi].
  apply lookup_delete_Some in Hj as [_ Hj].
  by apply (Hinv i j a b).
Qed.

Lemma no_overlap_step db op : no_overlap db → no_overlap (step db op).
Proof.
  intros Hinv. destruct op as [today self|k]; simpl.
  - by apply no_overlap_save.
  - by apply no_overlap_delete.
Qed.

Lemma no_overlap_run ops db : no_overlap db → no_overlap (run ops db).
Proof.
  revert db; induction ops as [|op ops IH]; intros db Hinv; [done|].
  simpl. apply IH. by apply no_overlap_step.
Qed.

Lemma keys_below_seq_empty : keys_below_seq empty_DB.
Proof. intros k row Hk. simpl in Hk. by rewrite lookup_empty in Hk. Qed.

Lemma keys_below_seq_step db op : keys_below_seq db → keys_below_seq (step db op).
Proof.
  intros Hwf. destruct op as [today self|k]; cbn [step].
  - rewrite Slot_save_unfold. destruct (existsb _ _); [done|].
    destruct (Model_save_spec today self db) as (k & -> & Hk). simpl.
    intros j row Hj. simpl in Hj.
    destruct (decide (k = j)) as [<-|Hne].
    + rewrite lookup_insert_eq in Hj. injection Hj as <-. split; [done|].
      destruct (slot_pk self) as [k0|]; simpl in Hk; subst k;
        cbn [set_slots slot_seq]; lia.
    + rewrite lookup_insert_ne in Hj by done.
      destruct (Hwf j row Hj) as [? ?]. split; [done|].
      destruct (slot_pk self) as [k0|]; cbn [set_slots slot_seq]; lia.
  - intros j row Hj. rewrite Slot_delete_slots in Hj.
    apply lookup_delete_Some in Hj as [_ Hj]. by apply Hwf.
Qed.

Lemma keys_below_seq_run ops db : keys_below_seq db → keys_below_seq (run ops db).
Proof.
  revert db; induction ops as [|op ops IH]; intros db Hwf; [done|].
  simpl. apply IH. by apply keys_below_seq_step.
Qed.

(** In a database reached from the empty one, a successful creation adds
    one row and changes no other. *)
Lemma creation_adds_a_row ops today self :
  let db := run ops empty_DB in
  slot_pk self = None →
  existsb (conflict_lookup self) (rows (slots db)) = false →
  slots db !! slot_seq db = None
  ∧ slots (Slot_save today self db).2
    = <[slot_seq db := set_slot_pk (slot_seq db) (set_start_date today self)]>
        (slots db).
Proof.
  intros db Hnew Hq. split.
  - destruct (slots db !! slot_seq db) as [row|] eqn:Hrow; [|done].
    destruct (keys_below_seq_run ops empty_DB keys_below_seq_empty _ _ Hrow)
      as [_ Hlt].
    by apply Z.lt_irrefl in Hlt.
  - rewrite Slot_save_unfold, Hq.
    destruct (Model_save_spec today self db) as (k & -> & ->).
    by rewrite Hnew.
Qed.

End Invariant.

(** C2: after every sequence of saves and deletions that starts from the
    empty database, no two stored slots on the same computer overlap under
    the rule [a.schedule_end > b.schedule_start] and
    [a.schedule_start < b.schedule_end]; and a successful save, from any
    database with that property, yields a database with it. *)
Theorem C2_no_overlap_invariant (ops : list Op) :
  no_overlap (run ops empty_DB)
  ∧ (∀ today self self' db db',
       no_overlap db → Slot_save today self db = (inr self', db') →
       no_overlap db').
Proof.
  split.
  - apply no_overlap_run, no_overlap_empty.
  - intros today self self' db db' Hinv Hsave.
    replace db' with (Slot_save today self db).2 by (by rewrite Hsave).
    by apply no_overlap_save.
Qed.

(** ** What [Slot.save] does not check *)

Section Save.

Lemma existsb_rows_none {A} (p : A → bool) (t : gmap Z A) :
  (∀ k r, t !! k = Some r → p r = false) → existsb p (rows t) = false.
Proof.
  intros Hall. destruct (existsb p (rows t)) eqn:Hq; [|done].
  apply existsb_rows in Hq as (k & r & Hk & Hp).
  rewrite (Hall k r Hk) in Hp. done.
Qed.

Lemma conflict_lookup_self self :
  dt_gt (schedule_end self) (schedule_start self) = true →
  conflict_lookup self self = true.
Proof.
  intros Hgt. apply conflict_lookup_true. split; [done|]. split; [done|].
  by rewrite <- dt_gt_lt.
Qed.

End Save.




(** C4: the conflict query compares whole timestamps.  Monday 1 January
    2001, 11:00 to 13:00, has the weekday and the times of day of Monday
    3 January 2000, 11:00 to 13:00; with Monday 3 January 2000, 10:00 to
    12:00, stored for the same computer, saving the second raises
    "Conflict Found" and saving the first does not. *)
Theorem C4_conflict_query_compares_dates :
  computer monday_11_13_in_2001 = computer monday_11_13
  ∧ weekly (schedule_start monday_11_13_in_2001)
    = weekly (schedule_start monday_11_13)
  ∧ weekly (schedule_end monday_11_13_in_2001)
    = weekly (schedule_end monday_11_13)
  ∧ start_day_of_the_week monday_11_13_in_2001 = 0
  ∧ start_day_of_the_week monday_11_13 = 0
  ∧ (Slot_save today0 monday_11_13 db_monday).1
    = inl (ValidationError "schedule" "Conflict Found")
  ∧ (Slot_save today0 monday_11_13_in_2001 db_monday).1
    = inr (set_slot_pk 2 (set_start_date today0 monday_11_13_in_2001)).
Proof. split_and!; vm_compute; done. Qed.

(** C5, as the code has it: saving again, as it is stored, a stored slot
    whose [schedule_end] is after its [schedule_start] raises "Conflict
    Found", since the conflict query finds the row of the slot itself, and
    the database stays as it was. *)
Theorem C5_saving_a_stored_slot_again_is_refused
    (today : date) (db : DB) (k : Z) (self : Slot) :
  slots db !! k = Some self →
  dt_gt (schedule_end self) (schedule_start self) = true →
  Slot_save today self db
  = (inl (ValidationError "schedule" "Conflict Found"), db).
Proof.
  intros Hk Hgt. rewrite Slot_save_unfold.
  assert (existsb (conflict_lookup self) (rows (slots db)) = true) as ->; [|done].
  apply existsb_rows. exists k, self. split; [done|].
  by apply conflict_lookup_self.
Qed.

Lemma C5_saving_a_stored_slot_again_is_refused_witness :
  Slot_save today0 (set_slot_pk 1 (set_start_date today0 monday_10_12))
    db_monday
  = (inl (ValidationError "schedule" "Conflict Found"), db_monday).
Proof.
  apply (C5_saving_a_stored_slot_again_is_refused today0 db_monday 1);
    vm_compute; reflexivity.
Defined.

(** C5, as the spec has it, fails: the slot stored under key 1 ends after
    it starts, and saving it again is refused. *)
Lemma C5_counterexample :
  let stored := set_slot_pk 1 (set_start_date today0 monday_10_12) in
  slots db_monday !! 1 = Some stored
  ∧ dt_gt (schedule_end stored) (schedule_start stored) = true
  ∧ Slot_save today0 stored db_monday
    = (inl (ValidationError "schedule" "Conflict Found"), db_monday).
Proof. split_and!; vm_compute; done. Qed.

(** ** Deleting a computer *)

Section Delete.

Lemma protect_refuses {A} (fk : A → option Z) set_fk k (t : gmap Z A) j r :
  t !! j = Some r → fk r = Some k →
  on_delete_apply PROTECT fk set_fk k t = None.
Proof.
  intros Hj Hfk. unfold on_delete_apply.
  assert (existsb (λ r, bool_decide (fk r = Some k)) (rows t) = true) as ->;
    [|done].
  apply existsb_rows. exists j, r. split; [done|].
  by apply bool_decide_eq_true.
Qed.

Lemma protect_allows {A} (fk : A → option Z) set_fk k (t : gmap Z A) :
  (∀ j r, t !! j = Some r → fk r ≠ Some k) →
  on_delete_apply PROTECT fk set_fk k t = Some t.
Proof.
  intros Hnone. unfold on_delete_apply.
  rewrite existsb_rows_none; [done|].
  intros j r Hj. apply bool_decide_eq_false. eauto.
Qed.

(** A computer that no slot refers to is deleted, and the slots stay. *)
Lemma Computer_delete_unreferenced db k :
  (∀ j row, slots db !! j = Some row → computer row ≠ Some k) →
  (Computer_delete k db).2 = set_computers (delete k (computers db)) db.
Proof.
  intros Hnone.
  unfold Computer_delete, mbind, M_bind, get_db, Slot_computer_on_delete.
  rewrite protect_allows by done. by destruct db.
Qed.

End Delete.

(** C6, as the code has it: [Slot.computer] is declared with
    [on_delete=models.PROTECT], so deleting a computer that a stored slot
    refers to raises [ProtectedError], and the computer, the slot and the
    rest of the database stay as they were. *)
Theorem C6_deleting_a_referenced_computer_is_refused
    (db : DB) (k j : Z) (row : Slot) :
  slots db !! j = Some row →
  computer row = Some k →
  Computer_delete k db = (inl ProtectedError, db).
Proof.
  intros Hj Hc.
  unfold Computer_delete, mbind, M_bind, get_db, Slot_computer_on_delete.
  by rewrite (protect_refuses computer set_computer k (slots db) j row).
Qed.

Lemma C6_deleting_a_referenced_computer_is_refused_witness :
  Computer_delete 1 db_village = (inl ProtectedError, db_village).
Proof.
  apply (C6_deleting_a_referenced_computer_is_refused db_village 1 1
           (set_slot_pk 1 (set_start_date today0 monday_10_12)));
    vm_compute; reflexivity.
Defined.

(** C6, as the spec has it, fails: computer 1 is stored and the slot of
    key 1 refers to it; deleting the computer raises, the computer is still
    there and the slot still refers to it. *)
Lemma C6_counterexample :
  computers db_village !! 1 = Some computer1
  ∧ computer <$> slots db_village !! 1 = Some (Some 1)
  ∧ (Computer_delete 1 db_village).1 = inl ProtectedError
  ∧ computers (Computer_delete 1 db_village).2 !! 1 = Some computer1
  ∧ computer <$> slots (Computer_delete 1 db_village).2 !! 1 = Some (Some 1).
Proof. split_and!; vm_compute; done. Qed.

(** ** The permission predicates *)

Section Permissions.

Lemma user_eq_true u d :
  user_eq u d = true ↔ ∃ usr, u = Authenticated usr ∧ d = Some (user_pk usr).
Proof.
  destruct u as [|usr], d as [k|]; simpl.
  - split; [done|]. by intros (? & ? & _).
  - split; [done|]. by intros (? & ? & _).
  - rewrite bool_decide_eq_true. split.
    + intros <-. eauto.
    + by intros (? & [= <-] & [= <-]).
  - split; [done|]. by intros (? & _ & ?).
Qed.

Lemma granted_superuser_or_director request r p :
  r = inr p →
  granted (superuser_or_director request r)
  ↔ is_superuser (user request) = true ∨ is_director request p.
Proof.
  intros ->. unfold granted, superuser_or_director, is_director.
  destruct (is_superuser _); simpl.
  - split; auto.
  - rewrite <- user_eq_true. split.
    + intros [= ->]. by right.
    + intros [?| ->]; done.
Qed.

Lemma granted_superuser_or_raise request r e :
  r = inl e →
  granted (superuser_or_director request r)
  ↔ is_superuser (user request) = true.
Proof.
  intros ->. unfold granted, superuser_or_director.
  destruct (is_superuser _); simpl; split; done.
Qed.

End Permissions.

(** C7: the object-level write permission of a slot is granted if and
    only if the user is a superuser or is the director of the program of
    the slot's computer; the update and read permissions are the write
    permission; and the permission to create a slot under the computer that
    the request names is granted if and only if the user is a superuser or
    is the director of that computer's program. *)
Theorem C7_slot_permissions (db : DB) (self : Slot) (request : Request) :
  (granted (SlotPerm.has_object_write_permission db self request)
   ↔ is_superuser (user request) = true
     ∨ ∃ kc c p, computer self = Some kc
         ∧ computers db !! kc = Some c
         ∧ programs db !! computer_program c = Some p
         ∧ is_director request p)
  ∧ SlotPerm.has_object_update_permission db self request
    = SlotPerm.has_object_write_permission db self request
  ∧ SlotPerm.has_object_read_permission db self request
    = SlotPerm.has_object_write_permission db self request
  ∧ (∀ x c p,
       parser_kwargs request !! "computer_external_id" = Some x →
       objects_get computer_external_id (computers db) x = inr c →
       programs db !! computer_program c = Some p →
       (granted (SlotPerm.has_create_permission db request)
        ↔ is_superuser (user request) = true ∨ is_director request p)).
Proof.
  split_and!; [|done|done|].
  - unfold SlotPerm.has_object_write_permission, related_nullable, related.
    destruct (computer self) as [kc|]; simpl.
    + destruct (computers db !! kc) as [c|] eqn:Hc; simpl.
      * destruct (programs db !! computer_program c) as [p|] eqn:Hp; simpl.
        -- rewrite (granted_superuser_or_director _ _ p) by done. split.
           ++ intros [?|?]; [by left|right]. eauto 10.
           ++ intros [?|(kc' & c' & p' & [= <-] & Hc' & Hp' & Hd)];
                [by left|right].
              rewrite Hc in Hc'. injection Hc' as <-.
              rewrite Hp in Hp'. by injection Hp' as <-.
        -- rewrite (granted_superuser_or_raise _ _ DoesNotExist) by done.
           split; [by left|].
           intros [?|(kc' & c' & p' & [= <-] & Hc' & Hp' & _)]; [done|].
           rewrite Hc in Hc'. injection Hc' as <-. congruence.
      * rewrite (granted_superuser_or_raise _ _ DoesNotExist) by done.
        split; [by left|].
        intros [?|(kc' & c' & p' & [= <-] & Hc' & _)]; [done|]. congruence.
    + rewrite (granted_superuser_or_raise _ _ (AttributeError "program"))
        by done.
      split; [by left|].
      intros [?|(kc' & c' & p' & ? & _)]; done.
  - intros x c p Hx Hget Hp.
    unfold SlotPerm.has_create_permission, kwarg, related.
    rewrite Hx. simpl. rewrite Hget. simpl. rewrite Hp.
    by apply granted_superuser_or_director.
Qed.

Lemma C7_slot_permissions_witness :
  granted (SlotPerm.has_create_permission db_village
             (request_of (Authenticated director)))
  ∧ ¬ granted (SlotPerm.has_create_permission db_village
                 (request_of (Authenticated stranger))).
Proof.
  pose proof (C7_slot_permissions db_village monday_10_12
                (request_of (Authenticated director))) as (_ & _ & _ & Hd).
  pose proof (C7_slot_permissions db_village monday_10_12
                (request_of (Authenticated stranger))) as (_ & _ & _ & Hs).
  specialize (Hd 100 computer1 program1 eq_refl eq_refl eq_refl).
  specialize (Hs 100 computer1 program1 eq_refl eq_refl eq_refl).
  split.
  - apply Hd. right. exists director. split; reflexivity.
  - intros Hg. apply Hs in Hg as [Hg|(u & Hu & Hp)].
    + discriminate Hg.
    + injection Hu as <-. discriminate Hp.
Defined.

(** C9: for a slot whose [computer] is null, the object-level write
    permission is [True] for a superuser, and for every other user the
    call raises the [AttributeError] of reading [program] from [None]
    instead of returning a boolean. *)
Theorem C9_orphan_slot_permission
    (db : DB) (self : Slot) (request : Request) :
  computer self = None →
  (is_superuser (user request) = true →
   SlotPerm.has_object_write_permission db self request = inr true)
  ∧ (is_superuser (user request) = false →
     SlotPerm.has_object_write_permission db self request
     = inl (AttributeError "program")
     ∧ ∀ b, SlotPerm.has_object_write_permission db self request ≠ inr b).
Proof.
  intros Hnull.
  unfold SlotPerm.has_object_write_permission, superuser_or_director.
  rewrite Hnull. simpl.
  split; intros ->; [done|]. split; [done|]. by intros b.
Qed.

Lemma C9_orphan_slot_permission_witness :
  SlotPerm.has_object_write_permission db_village orphan
    (request_of (Authenticated admin)) = inr true
  ∧ SlotPerm.has_object_write_permission db_village orphan
      (request_of (Authenticated director)) = inl (AttributeError "program").
Proof.
  split.
  - apply (C9_orphan_slot_permission db_village orphan
             (request_of (Authenticated admin))); reflexivity.
  - apply (C9_orphan_slot_permission db_village orphan
             (request_of (Authenticated director))); reflexivity.
Defined.

(** C10: the collection-level [has_write_permission] of [Program],
    [School], [Computer] and [Slot] is [True] for every request; a request
    is turned away by [has_create_permission] or by an object-level
    predicate, as an anonymous request and a request of a user who directs
    nothing show. *)
Theorem C10_collection_write_permission (request : Request) :
  ProgramPerm.has_write_permission request = true
  ∧ SchoolPerm.has_write_permission request = true
  ∧ ComputerPerm.has_write_permission request = true
  ∧ SlotPerm.has_write_permission request = true
  ∧ ProgramPerm.has_create_permission (request_of AnonymousUser) = false
  ∧ ProgramPerm.has_object_write_permission program1
      (request_of (Authenticated stranger)) = false
  ∧ ComputerPerm.has_object_write_permission db_village computer1
      (request_of (Authenticated stranger)) = inr false
  ∧ SlotPerm.has_create_permission db_village
      (request_of (Authenticated stranger)) = inr false
  ∧ SlotPerm.has_object_write_permission db_village monday_10_12
      (request_of (Authenticated stranger)) = inr false.
Proof. split_and!; reflexivity. Qed.

(** ** The capacity of a slot *)

Module CapacityFacts.
Import CapacityTracker.

Lemma assignStudent_full s :
  assigned_students s = max_students s →
  assignStudent s = inl CapacityExceededError.
Proof. intros H. unfold assignStudent. by rewrite bool_decide_eq_true_2. Qed.

Lemma assignStudent_room s :
  assigned_students s ≠ max_students s →
  assignStudent s = inr (set_assigned (assigned_students s + 1) true s).
Proof. intros H. unfold assignStudent. by rewrite bool_decide_eq_false_2. Qed.

Lemma assignStudent_within s s' :
  within_capacity s → assignStudent s = inr s' → within_capacity s'.
Proof.
  unfold within_capacity, assignStudent. intros Hs.
  case_bool_decide; [done|]. intros [= <-]. simpl. lia.
Qed.

Lemma assign_times_within n : ∀ s s',
  within_capacity s → assign_times n s = inr s' → within_capacity s'.
Proof.
  induction n as [|n IH]; intros s s' Hs; simpl.
  - by intros [= <-].
  - destruct (assignStudent s) as [e|s1] eqn:H1; [done|].
    apply IH. by apply (assignStudent_within s).
Qed.

(** From [assigned_students = a], [n] calls succeed as long as
    [a + n] does not pass [max_students]. *)
Lemma assign_times_succeeds n : ∀ s,
  0 ≤ assigned_students s →
  assigned_students s + Z.of_nat n ≤ max_students s →
  ∃ s', assign_times n s = inr s'
        ∧ assigned_students s' = assigned_students s + Z.of_nat n
        ∧ max_students s' = max_students s
        ∧ (n ≠ O → is_student_assigned s' = true).
Proof.
  induction n as [|n IH]; intros s H0 Hle; simpl.
  - exists s. split_and!; [done|lia|done|done].
  - rewrite assignStudent_room by lia.
    destruct (IH (set_assigned (assigned_students s + 1) true s))
      as (s' & Hrun & Ha & Hm & Hf); simpl; [lia|lia|].
    exists s'. simpl in Ha, Hm. split_and!; [done|lia|done|].
    intros _. destruct n as [|n]; [|by apply Hf].
    simpl in Hrun. by injection Hrun as <-.
Qed.

End CapacityFacts.

(** C8, amended: a slot with
    [0 ≤ assigned_students ≤ max_students], as every new slot with the
    declared defaults is, keeps that under [assignStudent].  On such a
    slot [assignStudent] fails, with [CapacityExceededError], exactly when
    [assigned_students = max_students], and a failing call returns no
    changed slot; a successful call adds one to [assigned_students], sets
    [is_student_assigned] and keeps [max_students].  From
    [assigned_students = 0] the first [max_students] calls all succeed, and
    the call after them fails. *)
Theorem C8_capacity (s : Slot) :
  CapacityTracker.within_capacity s →
  (CapacityTracker.assignStudent s
     = inl CapacityTracker.CapacityExceededError
   ↔ assigned_students s = max_students s)
  ∧ (∀ e, CapacityTracker.assignStudent s = inl e →
          e = CapacityTracker.CapacityExceededError)
  ∧ (∀ s', CapacityTracker.assignStudent s = inr s' →
       assigned_students s' = assigned_students s + 1
       ∧ is_student_assigned s' = true
       ∧ max_students s' = max_students s
       ∧ CapacityTracker.within_capacity s')
  ∧ (∀ n s', CapacityTracker.assign_times n s = inr s' →
             CapacityTracker.within_capacity s')
  ∧ (assigned_students s = 0 →
     (∀ n, Z.of_nat n ≤ max_students s →
        ∃ s', CapacityTracker.assign_times n s = inr s'
              ∧ assigned_students s' = Z.of_nat n
              ∧ (n ≠ O → is_student_assigned s' = true))
     ∧ ∃ full,
         CapacityTracker.assign_times (Z.to_nat (max_students s)) s = inr full
         ∧ assigned_students full = max_students s
         ∧ CapacityTracker.assignStudent full
           = inl CapacityTracker.CapacityExceededError)
  ∧ (∀ c lang t0 t1,
       CapacityTracker.within_capacity (new_Slot c lang t0 t1)).
Proof.
  intros Hs. split_and!.
  - unfold CapacityTracker.assignStudent. case_bool_decide; split; done.
  - unfold CapacityTracker.assignStudent. intros e.
    case_bool_decide; [|done]. by intros [= <-].
  - intros s' Hok. split_and!;
      [| | |by apply (CapacityFacts.assignStudent_within s)];
      unfold CapacityTracker.assignStudent in Hok;
      case_bool_decide; try done; by injection Hok as <-.
  - intros n s'. by apply CapacityFacts.assign_times_within.
  - intros H0. destruct Hs as [_ Hmax]. split.
    + intros n Hn.
      destruct (CapacityFacts.assign_times_succeeds n s) as (s' & ? & ? & ? & ?);
        [lia|lia|].
      exists s'. split_and!; [done|lia|done].
    + destruct (CapacityFacts.assign_times_succeeds
                  (Z.to_nat (max_students s)) s) as (full & ? & ? & ? & _);
        [lia|lia|].
      exists full. split_and!; [done|lia|].
      apply CapacityFacts.assignStudent_full. lia.
  - intros c lang t0 t1. unfold CapacityTracker.within_capacity. simpl. lia.
Qed.

Lemma C8_capacity_witness :
  CapacityTracker.within_capacity monday_10_12
  ∧ ∃ full,
      CapacityTracker.assign_times 1 monday_10_12 = inr full
      ∧ assigned_students full = 1
      ∧ CapacityTracker.assignStudent full
        = inl CapacityTracker.CapacityExceededError.
Proof.
  assert (CapacityTracker.within_capacity monday_10_12) as Hw.
  { unfold CapacityTracker.within_capacity. simpl. lia. }
  split; [exact Hw|].
  destruct (C8_capacity monday_10_12 Hw) as (_ & _ & _ & _ & Hrun & _).
  destruct (Hrun eq_refl) as (_ & full & Hfull).
  exists full. exact Hfull.
Defined.

(** C8, as the spec has it, fails: [max_students] is an integer field
    that [save] does not check, so a slot declared with capacity -1 is
    stored with [assigned_students = 0 > max_students], and
    [assignStudent] then succeeds on it. *)
Lemma C8_counterexample :
  let stored := set_slot_pk 1 (set_start_date today0 negative_capacity) in
  slots (Slot_save today0 negative_capacity empty_DB).2 !! 1 = Some stored
  ∧ assigned_students stored = 0
  ∧ max_students stored = -1
  ∧ ¬ CapacityTracker.within_capacity stored
  ∧ CapacityTracker.assignStudent stored
    = inr (set_assigned 1 true stored).
Proof.
  split_and!; try (vm_compute; reflexivity).
  unfold CapacityTracker.within_capacity. simpl. lia.
Qed.

(** ** The order of timestamps and the instants of a slot *)

Section Instants.

Lemma cmp_components_le_lt_trans xs : ∀ ys zs,
  cmp_components xs ys ≠ Gt → cmp_components ys zs = Lt →
  cmp_components xs zs = Lt.
Proof.
  induction xs as [|x xs IH]; intros [|y ys] [|z zs]; simpl; try done.
  destruct (Z.compare_spec x y) as [->|Hxy|Hxy]; [| |done].
  - destruct (y ?= z); try done. apply IH.
  - intros _. destruct (Z.compare_spec y z) as [->|Hyz|Hyz]; [| |done].
    + intros _. by apply Z.compare_lt_iff in Hxy as ->.
    + intros _. assert (x < z) as Hxz by lia.
      by apply Z.compare_lt_iff in Hxz as ->.
Qed.

Lemma dt_le_lt_trans a b c :
  dt_le a b = true → dt_lt b c = true → dt_lt a c = true.
Proof.
  unfold dt_le, dt_lt, _cmp. intros Hab Hbc.
  rewrite (cmp_components_le_lt_trans (components a) (components b));
    [done| |].
  - rewrite (cmp_components_antisym (components b) (components a)).
    revert Hab. by destruct (cmp_components (components b) (components a)).
  - revert Hbc. by destruct (cmp_components (components b) (components c)).
Qed.

Lemma dt_le_refl a : dt_le a a = true.
Proof. unfold dt_le. by rewrite dt_lt_irrefl. Qed.

Lemma dt_lt_le a b : dt_lt a b = true → dt_le a b = true.
Proof.
  unfold dt_le, dt_lt, _cmp.
  rewrite (cmp_components_antisym (components a) (components b)).
  by destruct (cmp_components (components a) (components b)).
Qed.

Lemma in_slot_overlaps t a b : in_slot t a → in_slot t b → overlaps a b.
Proof.
  intros [Ha0 Ha1] [Hb0 Hb1]. split.
  - rewrite dt_gt_lt. by apply (dt_le_lt_trans _ t).
  - by apply (dt_le_lt_trans _ t).
Qed.

(** Two proper windows that overlap have the later of their two starts in
    common. *)
Lemma overlaps_in_slot a b :
  proper a → proper b → overlaps a b → ∃ t, in_slot t a ∧ in_slot t b.
Proof.
  unfold proper, overlaps, in_slot. rewrite dt_gt_lt. intros Ha Hb [H1 H2].
  destruct (dt_lt (schedule_start a) (schedule_start b)) eqn:Hab.
  - exists (schedule_start b). split_and!; try done.
    + by apply dt_lt_le.
    + apply dt_le_refl.
  - exists (schedule_start a). split_and!; try done.
    + apply dt_le_refl.
    + unfold dt_le. by rewrite Hab.
Qed.

End Instants.

(** ** Sequences of saves *)

Section SaveSequences.

Lemma refused_iff today self db :
  refused (Slot_save today self db)
  ↔ existsb (conflict_lookup self) (rows (slots db)) = true.
Proof.
  unfold refused. rewrite Slot_save_unfold.
  destruct (existsb _ _); [done|].
  by destruct (Model_save_spec today self db) as (k & -> & _).
Qed.

Lemma refused_iff_conflict today self db :
  refused (Slot_save today self db)
  ↔ ∃ k row, slots db !! k = Some row
      ∧ computer row = computer self ∧ overlaps row self.
Proof.
  rewrite refused_iff, existsb_rows.
  split; intros (k & row & Hk & Hc); exists k, row; split; try done;
    by apply conflict_lookup_true.
Qed.

Lemma refused_result today self db :
  refused (Slot_save today self db) →
  Slot_save today self db
  = (inl (ValidationError "schedule" "Conflict Found"), db).
Proof.
  intros Hr. apply refused_iff in Hr. by rewrite Slot_save_unfold, Hr.
Qed.

Lemma accepted_result today self db :
  ¬ refused (Slot_save today self db) →
  let k := default (slot_seq db) (slot_pk self) in
  let self' := set_slot_pk k (set_start_date today self) in
  (Slot_save today self db).1 = inr self'
  ∧ slots (Slot_save today self db).2 = <[k := self']> (slots db).
Proof.
  intros Hr k self'. rewrite refused_iff in Hr. rewrite Slot_save_unfold.
  destruct (existsb _ _); [done|].
  by destruct (Model_save_spec today self db) as (k' & -> & ->).
Qed.

Lemma seq_is_free db : keys_below_seq db → slots db !! slot_seq db = None.
Proof.
  intros Hwf. destruct (slots db !! slot_seq db) as [row|] eqn:Hrow; [|done].
  destruct (Hwf _ _ Hrow) as [_ Hlt]. by apply Z.lt_irrefl in Hlt.
Qed.

Lemma no_overlap_db_monday : no_overlap db_monday.
Proof. apply no_overlap_save, no_overlap_empty. Qed.

Lemma keys_below_seq_db_monday : keys_below_seq db_monday.
Proof.
  apply (keys_below_seq_step empty_DB (OpSave today0 monday_10_12)),
    keys_below_seq_empty.
Qed.

End SaveSequences.

(** X1: deleting a stored slot frees its window.  In a database without
    overlaps, once the slot of key [k] is deleted, a slot with the computer
    and the schedule of the deleted one is accepted by [save]. *)
Theorem delete_then_recreate
    (db : DB) (k : Z) (row : Slot) (today : date) (self : Slot) :
  no_overlap db →
  slots db !! k = Some row →
  computer self = computer row →
  schedule_start self = schedule_start row →
  schedule_end self = schedule_end row →
  (Slot_save today self (Slot_delete k db).2).1
  = inr (set_slot_pk (default (slot_seq db) (slot_pk self))
           (set_start_date today self)).
Proof.
  intros Hinv Hk Hc H0 H1.
  apply (accepted_result today self (Slot_delete k db).2).
  rewrite refused_iff_conflict, Slot_delete_slots.
  intros (j & row' & Hj & Hc' & Hov).
  apply lookup_delete_Some in Hj as [Hne Hj].
  apply (Hinv j k row' row); [done|done|done|congruence|].
  unfold overlaps in *. by rewrite <- H0, <- H1.
Qed.

Lemma delete_then_recreate_witness :
  (Slot_save today0 monday_10_12 (Slot_delete 1 db_monday).2).1
  = inr (set_slot_pk 2 (set_start_date today0 monday_10_12)).
Proof.
  apply (delete_then_recreate db_monday 1
           (set_slot_pk 1 (set_start_date today0 monday_10_12)));
    [apply no_overlap_db_monday | vm_compute; reflexivity | reflexivity ..].
Defined.

(** X2: a stored slot whose [schedule_end] is not after its
    [schedule_start] is not in conflict with itself: in a database without
    overlaps, saving it again succeeds and writes it back under its key. *)
Theorem backwards_slot_can_be_saved_again
    (db : DB) (k : Z) (row : Slot) (today : date) :
  no_overlap db →
  slots db !! k = Some row →
  slot_pk row = Some k →
  dt_gt (schedule_end row) (schedule_start row) = false →
  (Slot_save today row db).1 = inr (set_start_date today row)
  ∧ slots (Slot_save today row db).2
    = <[k := set_start_date today row]> (slots db).
Proof.
  intros Hinv Hk Hpk Hback.
  assert (¬ refused (Slot_save today row db)) as Hacc.
  { rewrite refused_iff_conflict. intros (j & row' & Hj & Hc & Hov).
    destruct (decide (j = k)) as [->|Hne].
    - rewrite Hk in Hj. injection Hj as <-.
      destruct Hov as [Hgt _]. congruence.
    - by apply (Hinv j k row' row). }
  apply accepted_result in Hacc. rewrite Hpk in Hacc. simpl in Hacc.
  assert (set_slot_pk k (set_start_date today row) = set_start_date today row)
    as Heq.
  { clear -Hpk. destruct row as [pk c l t0 t1 sd ed ev hl mx asg fm fs].
    simpl in Hpk. subst pk. reflexivity. }
  by rewrite Heq in Hacc.
Qed.

Lemma backwards_slot_can_be_saved_again_witness :
  (Slot_save today0 (set_slot_pk 1 (set_start_date today0 monday_12_10))
     db_backwards).1
  = inr (set_slot_pk 1 (set_start_date today0 monday_12_10)).
Proof.
  apply (backwards_slot_can_be_saved_again db_backwards 1
           (set_slot_pk 1 (set_start_date today0 monday_12_10)) today0).
  - apply no_overlap_save, no_overlap_empty.
  - vm_compute. reflexivity.
  - reflexivity.
  - reflexivity.
Defined.

(** X3: creations on different computers do not interfere.  Whether
    [save] refuses a slot is the same before and after a slot of another
    computer was created. *)
Theorem saves_on_other_computers_are_independent
    (db : DB) (t1 t2 : date) (s1 s2 : Slot) :
  keys_below_seq db →
  slot_pk s1 = None →
  computer s1 ≠ computer s2 →
  refused (Slot_save t2 s2 (Slot_save t1 s1 db).2)
  ↔ refused (Slot_save t2 s2 db).
Proof.
  intros Hwf Hnew Hne.
  destruct (decide (refused (Slot_save t1 s1 db))) as [Hr|Hr].
  { by rewrite (refused_result _ _ _ Hr). }
  apply accepted_result in Hr as [_ Hslots].
  rewrite Hnew in Hslots. simpl in Hslots.
  rewrite !refused_iff_conflict, Hslots.
  pose proof (seq_is_free db Hwf) as Hfree.
  split; intros (j & row & Hj & Hc & Hov).
  - destruct (decide (slot_seq db = j)) as [<-|Hj'].
    + rewrite lookup_insert_eq in Hj. injection Hj as <-. done.
    + rewrite lookup_insert_ne in Hj by done. eauto.
  - exists j, row. split; [|done].
    rewrite lookup_insert_ne; [done|]. intros <-. congruence.
Qed.

Lemma saves_on_other_computers_are_independent_witness :
  refused (Slot_save today0 monday_11_13
             (Slot_save today0 monday_11_13_computer2 db_monday).2)
  ↔ refused (Slot_save today0 monday_11_13 db_monday).
Proof.
  apply (saves_on_other_computers_are_independent db_monday today0 today0
           monday_11_13_computer2 monday_11_13).
  - apply keys_below_seq_db_monday.
  - reflexivity.
  - discriminate.
Defined.

(** X4: once a slot is stored, every slot of the same computer that
    overlaps it is refused, and the refusal changes nothing; so a window
    cannot be booked twice in a row. *)
Theorem overlapping_slot_is_refused_after_save
    (db : DB) (today today' : date) (self self' other : Slot) :
  (Slot_save today self db).1 = inr self' →
  computer other = computer self →
  overlaps self other →
  Slot_save today' other (Slot_save today self db).2
  = (inl (ValidationError "schedule" "Conflict Found"),
     (Slot_save today self db).2).
Proof.
  intros Hok Hc Hov. apply refused_result, refused_iff_conflict.
  assert (¬ refused (Slot_save today self db)) as Hacc.
  { unfold refused. by rewrite Hok. }
  apply accepted_result in Hacc as [_ ->].
  eexists _, _. split; [apply lookup_insert_eq|]. done.
Qed.

Lemma overlapping_slot_is_refused_after_save_witness :
  Slot_save today0 monday_11_13 (Slot_save today0 monday_10_12 empty_DB).2
  = (inl (ValidationError "schedule" "Conflict Found"),
     (Slot_save today0 monday_10_12 empty_DB).2).
Proof.
  apply (overlapping_slot_is_refused_after_save empty_DB today0 today0
           monday_10_12
           (set_slot_pk 1 (set_start_date today0 monday_10_12))
           monday_11_13).
  - reflexivity.
  - reflexivity.
  - split; reflexivity.
Defined.

(** ** Windows as sets of instants *)

(** X5: after every sequence of saves and deletions that starts from the
    empty database, no instant lies in the windows of two stored slots of
    the same computer. *)
Theorem stored_slots_share_no_instant
    (ops : list Op) (i j : Z) (a b : Slot) (t : datetime) :
  i ≠ j →
  slots (run ops empty_DB) !! i = Some a →
  slots (run ops empty_DB) !! j = Some b →
  computer a = computer b →
  ¬ (in_slot t a ∧ in_slot t b).
Proof.
  intros Hij Hi Hj Hc [Ha Hb].
  apply (no_overlap_run ops empty_DB no_overlap_empty i j a b); try done.
  by apply (in_slot_overlaps t).
Qed.

Lemma stored_slots_share_no_instant_witness :
  ¬ (in_slot (at_ 2000 1 3 11 0)
       (set_slot_pk 1 (set_start_date today0 monday_10_12))
     ∧ in_slot (at_ 2000 1 3 11 0)
         (set_slot_pk 2 (set_start_date today0 tuesday_09_10))).
Proof.
  apply (stored_slots_share_no_instant
           [OpSave today0 monday_10_12; OpSave today0 tuesday_09_10] 1 2).
  - discriminate.
  - vm_compute. reflexivity.
  - vm_compute. reflexivity.
  - reflexivity.
Defined.

(** X6: when the slot to save and the stored slots all end after they
    start, [save] refuses the slot if and only if some instant lies both in
    its window and in the window of a stored slot of the same computer. *)
Theorem refused_iff_shared_instant (db : DB) (today : date) (self : Slot) :
  proper self →
  (∀ k row, slots db !! k = Some row → proper row) →
  refused (Slot_save today self db)
  ↔ ∃ k row t, slots db !! k = Some row
      ∧ computer row = computer self
      ∧ in_slot t row ∧ in_slot t self.
Proof.
  intros Hself Hrows. rewrite refused_iff_conflict. split.
  - intros (k & row & Hk & Hc & Hov).
    destruct (overlaps_in_slot row self) as (t & Hr & Hs);
      [by apply (Hrows k)|done|done|].
    eauto 10.
  - intros (k & row & t & Hk & Hc & Hr & Hs).
    exists k, row. split_and!; [done|done|].
    by apply (in_slot_overlaps t).
Qed.

Lemma refused_iff_shared_instant_witness :
  refused (Slot_save today0 monday_11_13 db_monday).
Proof.
  apply (refused_iff_shared_instant db_monday today0 monday_11_13).
  - reflexivity.
  - assert (slots db_monday
            = {[ 1 := set_slot_pk 1 (set_start_date today0 monday_10_12) ]})
      as -> by reflexivity.
    intros k row [_ <-]%lookup_singleton_Some. reflexivity.
  - exists 1, (set_slot_pk 1 (set_start_date today0 monday_10_12)),
      (at_ 2000 1 3 11 0).
    split_and!; [reflexivity | reflexivity | split; reflexivity ..].
Defined.

(** ** The reference week *)

Section ReferenceWeek.

Lemma weekday_january_2000 d :
  weekday (mkdate 2000 1 d) = (d + 730125) mod 7.
Proof.
  unfold weekday, toordinal, _ymd2ord. simpl year. simpl month. simpl day.
  change (_days_before_year 2000) with 730119.
  change (_days_before_month 2000 1) with 0.
  f_equal. lia.
Qed.

Lemma weekday_range d : 0 ≤ weekday d < 7.
Proof. unfold weekday. apply Z.mod_pos_bound. lia. Qed.

Lemma reference_week_weekday t :
  in_reference_week t → weekday (dt_date t) = day (dt_date t) - 3.
Proof.
  destruct t as [[y m d] h mi sec us]. unfold in_reference_week. simpl.
  intros (-> & -> & Hd). rewrite weekday_january_2000.
  replace (d + 730125) with ((d - 3) + 104304 * 7) by lia.
  rewrite Z.mod_add by lia. apply Z.mod_small. lia.
Qed.

(** In the reference week the order of two timestamps is their order by
    weekday and time of day. *)
Lemma reference_week_dt_lt t t' :
  in_reference_week t → in_reference_week t' →
  dt_lt t t' = weekly_lt (weekly t) (weekly t').
Proof.
  intros Ht Ht'. unfold weekly_lt, weekly, weekly_components.
  rewrite (reference_week_weekday t Ht), (reference_week_weekday t' Ht').
  destruct t as [[y m d] h mi sec us], t' as [[y' m' d'] h' mi' sec' us'].
  destruct Ht as (Hy & Hm & _), Ht' as (Hy' & Hm' & _). simpl in *. subst.
  unfold dt_lt, _cmp, components. simpl.
  destruct (Z.compare_spec d d'), (Z.compare_spec (d - 3) (d' - 3));
    try lia; reflexivity.
Qed.

End ReferenceWeek.

(** X7: [DEAFULT_INIT_DATE] is a Monday, the first of the year 2000, and
    the day [n] days after it, written as day [3 + n] of January 2000, has
    weekday [n mod 7]; the weekdays that a slot reports lie between 0 and
    6. *)
Theorem weekdays_of_the_reference_week (self : Slot) :
  0 ≤ start_day_of_the_week self < 7
  ∧ 0 ≤ end_day_of_the_week self < 7
  ∧ weekday (dt_date DEAFULT_INIT_DATE) = 0
  ∧ weekday (mkdate 2000 1 1) = 5
  ∧ weekday (mkdate 2000 1 2) = 6
  ∧ (∀ n, dt_date (schedule_start self) = mkdate 2000 1 (3 + n) →
          start_day_of_the_week self = n mod 7)
  ∧ (∀ n, dt_date (schedule_end self) = mkdate 2000 1 (3 + n) →
          end_day_of_the_week self = n mod 7).
Proof.
  assert (∀ n, weekday (mkdate 2000 1 (3 + n)) = n mod 7) as Hweek.
  { intros n. rewrite weekday_january_2000.
    replace (3 + n + 730125) with (n + 104304 * 7) by lia.
    apply Z.mod_add. lia. }
  unfold start_day_of_the_week, end_day_of_the_week.
  split_and!; try apply weekday_range; try reflexivity.
  - intros n ->. apply Hweek.
  - intros n ->. apply Hweek.
Qed.

(** X8: when the timestamps of the slot to save and of the stored slots
    all lie in the reference week, [3 .. 9 January 2000], the decision of
    [save] can be read from weekdays and times of day alone: the slot is
    refused if and only if, for a stored slot of the same computer, its
    start is before that slot's end and that slot's start is before its
    end, both in the order by weekday and time of day. *)
Theorem reference_week_conflict_by_weekday_and_time
    (db : DB) (today : date) (self : Slot) :
  in_reference_week (schedule_start self) →
  in_reference_week (schedule_end self) →
  (∀ k row, slots db !! k = Some row →
     in_reference_week (schedule_start row)
     ∧ in_reference_week (schedule_end row)) →
  refused (Slot_save today self db)
  ↔ ∃ k row, slots db !! k = Some row
      ∧ computer row = computer self
      ∧ weekly_lt (weekly (schedule_start self)) (weekly (schedule_end row))
        = true
      ∧ weekly_lt (weekly (schedule_start row)) (weekly (schedule_end self))
        = true.
Proof.
  intros H0 H1 Hrows. rewrite refused_iff_conflict. unfold overlaps.
  split; intros (k & row & Hk & Hc & Ha & Hb); exists k, row;
    destruct (Hrows k row Hk) as [Hr0 Hr1]; split_and!; try done.
  - by rewrite <- reference_week_dt_lt, <- dt_gt_lt.
  - by rewrite <- reference_week_dt_lt.
  - by rewrite dt_gt_lt, reference_week_dt_lt.
  - by rewrite reference_week_dt_lt.
Qed.

Lemma reference_week_conflict_by_weekday_and_time_witness :
  refused (Slot_save today0 monday_11_13 db_monday)
  ∧ ¬ refused (Slot_save today0 monday_12_14 db_monday).
Proof.
  assert (∀ k row, slots db_monday !! k = Some row →
            in_reference_week (schedule_start row)
            ∧ in_reference_week (schedule_end row)) as Hrows.
  { assert (slots db_monday
            = {[ 1 := set_slot_pk 1 (set_start_date today0 monday_10_12) ]})
      as -> by reflexivity.
    intros k row [_ <-]%lookup_singleton_Some.
    unfold in_reference_week. simpl. lia. }
  split.
  - apply (reference_week_conflict_by_weekday_and_time db_monday today0
             monday_11_13); [unfold in_reference_week; simpl; lia ..
                            | exact Hrows |].
    exists 1, (set_slot_pk 1 (set_start_date today0 monday_10_12)).
    split_and!; reflexivity.
  - intros Hr.
    apply (reference_week_conflict_by_weekday_and_time db_monday today0
             monday_12_14) in Hr;
      [| unfold in_reference_week; simpl; lia .. | exact Hrows].
    destruct Hr as (k & row & Hk & _ & Ha & _).
    assert (slots db_monday
            = {[ 1 := set_slot_pk 1 (set_start_date today0 monday_10_12) ]})
      as Hs by reflexivity.
    rewrite Hs in Hk. apply lookup_singleton_Some in Hk as [_ <-].
    discriminate Ha.
Defined.

(** ** The permission predicates of the other models *)

Section Hierarchy.

Lemma elem_of_rows {A} (t : gmap Z A) r : r ∈ rows t ↔ ∃ k, t !! k = Some r.
Proof.
  unfold rows. rewrite list_elem_of_fmap. split.
  - intros ([k r'] & -> & Hkr). apply elem_of_map_to_list in Hkr. eauto.
  - intros (k & Hk). exists (k, r). split; [done|].
    by apply elem_of_map_to_list.
Qed.

Lemma objects_get_unknown {A} (ext : A → Z) (t : gmap Z A) x :
  (∀ k r, t !! k = Some r → ext r ≠ x) →
  objects_get ext t x = inl DoesNotExist.
Proof.
  intros Hnone. unfold objects_get.
  destruct (filter _ _) as [|r l] eqn:Hf; [done|].
  assert (r ∈ filter (λ r, ext r = x) (rows t)) as Hin
    by (rewrite Hf; left).
  apply list_elem_of_filter in Hin as [Hx Hin].
  apply elem_of_rows in Hin as [k Hk]. by destruct (Hnone k r).
Qed.

Lemma objects_get_found {A} (ext : A → Z) (t : gmap Z A) x r :
  objects_get ext t x = inr r → ext r = x ∧ ∃ k, t !! k = Some r.
Proof.
  unfold objects_get. destruct (filter _ _) as [|r' [|]] eqn:Hf; try done.
  intros [= <-].
  assert (r' ∈ filter (λ r, ext r = x) (rows t)) as Hin
    by (rewrite Hf; left).
  apply list_elem_of_filter in Hin as [Hx Hin]. split; [done|].
  by apply elem_of_rows.
Qed.

Lemma anonymous_not_granted kw r :
  ¬ granted (superuser_or_director (mkRequest AnonymousUser kw) r).
Proof. unfold granted, superuser_or_director. by destruct r. Qed.

Lemma bind_not_granted {A} (m : Result A) (f : A → Result bool) :
  (∀ a, ¬ granted (f a)) → ¬ granted (m ≫= f).
Proof. intros Hf. destruct m as [e|a]; [done|]. apply Hf. Qed.

Lemma superuser_or_director_no_director request p :
  program_director p = None →
  superuser_or_director request (mret p) = inr (is_superuser (user request)).
Proof.
  intros Hnone. unfold superuser_or_director.
  destruct (is_superuser _); [done|]. simpl. rewrite Hnone.
  by destruct (user request).
Qed.

End Hierarchy.

(** X9: the object-level write permission of a program is [True] exactly
    for a superuser and for the director of the program, and only a
    superuser may create programs; the one of a computer is granted exactly
    to a superuser and to the director of the computer's program, and so is
    the permission to create a computer under the program that the request
    names. *)
Theorem program_and_computer_permissions
    (db : DB) (p : Program) (c : Computer) (request : Request) :
  (ProgramPerm.has_object_write_permission p request = true
   ↔ is_superuser (user request) = true ∨ is_director request p)
  ∧ ProgramPerm.has_create_permission request = is_superuser (user request)
  ∧ (granted (ComputerPerm.has_object_write_permission db c request)
     ↔ is_superuser (user request) = true
       ∨ ∃ p', programs db !! computer_program c = Some p'
               ∧ is_director request p')
  ∧ (∀ x p',
       parser_kwargs request !! "program_external_id" = Some x →
       objects_get program_external_id (programs db) x = inr p' →
       (granted (ComputerPerm.has_create_permission db request)
        ↔ is_superuser (user request) = true ∨ is_director request p')).
Proof.
  split_and!; [| done | |].
  - unfold ProgramPerm.has_object_write_permission, is_director.
    rewrite orb_true_iff, user_eq_true. done.
  - unfold ComputerPerm.has_object_write_permission, related.
    destruct (programs db !! computer_program c) as [p'|] eqn:Hp.
    + rewrite (granted_superuser_or_director _ _ p') by done. split.
      * intros [?|?]; [by left|right]. eauto.
      * intros [?|(p'' & [= <-] & ?)]; [by left|by right].
    + rewrite (granted_superuser_or_raise _ _ DoesNotExist) by done.
      split; [by left|]. by intros [?|(p'' & ? & _)].
  - intros x p' Hx Hget.
    unfold ComputerPerm.has_create_permission, kwarg.
    rewrite Hx. simpl. rewrite Hget. simpl.
    by apply granted_superuser_or_director.
Qed.

Lemma program_and_computer_permissions_witness :
  granted (ComputerPerm.has_create_permission db_village
             (mkRequest (Authenticated director)
                {[ "program_external_id" := 500 ]})).
Proof.
  pose proof (program_and_computer_permissions db_village program1 computer1
                (mkRequest (Authenticated director)
                   {[ "program_external_id" := 500 ]})) as (_ & _ & _ & Hc).
  apply (Hc 500 program1 eq_refl eq_refl).
  right. exists director. split; reflexivity.
Defined.

(** X10: the object-level write permission of a school is granted
    exactly to a superuser and to the director of the school's program; the
    one of a classroom exactly to a superuser and to the director of the
    program of the classroom's school.  A school without program, and a
    classroom without school, grant it to superusers only. *)
Theorem school_and_classroom_permissions
    (db : DB) (schools : gmap Z School) (s : School) (cl : Classroom)
    (request : Request) :
  (granted (SchoolPerm.has_object_write_permission db s request)
   ↔ is_superuser (user request) = true
     ∨ ∃ kp p, school_program s = Some kp
         ∧ programs db !! kp = Some p
         ∧ is_director request p)
  ∧ (granted (ClassroomPerm.has_object_write_permission db schools cl request)
     ↔ is_superuser (user request) = true
       ∨ ∃ ks s' kp p, classroom_school cl = Some ks
           ∧ schools !! ks = Some s'
           ∧ school_program s' = Some kp
           ∧ programs db !! kp = Some p
           ∧ is_director request p).
Proof.
  assert (∀ s0 : School,
    granted (superuser_or_director request
               (p ← related_nullable (programs db) (school_program s0);
                getattr "program_director" p mret))
    ↔ is_superuser (user request) = true
      ∨ ∃ kp p, school_program s0 = Some kp
          ∧ programs db !! kp = Some p ∧ is_director request p) as Hschool.
  { intros s0. unfold related_nullable, related.
    destruct (school_program s0) as [kp|]; simpl.
    - destruct (programs db !! kp) as [p|] eqn:Hp; simpl.
      + rewrite (granted_superuser_or_director _ _ p) by done. split.
        * intros [?|?]; [by left|right]. eauto.
        * intros [?|(kp' & p' & [= <-] & Hp' & ?)]; [by left|right].
          rewrite Hp in Hp'. by injection Hp' as <-.
      + rewrite (granted_superuser_or_raise _ _ DoesNotExist) by done.
        split; [by left|].
        intros [?|(kp' & p' & [= <-] & Hp' & _)]; [done|congruence].
    - rewrite (granted_superuser_or_raise _ _
                 (AttributeError "program_director")) by done.
      split; [by left|]. by intros [?|(kp' & p' & ? & _)]. }
  split; [apply Hschool|].
  unfold ClassroomPerm.has_object_write_permission.
  destruct (classroom_school cl) as [ks|]; simpl.
  - unfold related. destruct (schools !! ks) as [s'|] eqn:Hs; simpl.
    + rewrite Hschool. split.
      * intros [?|(kp & p & ?)]; [by left|right]. eauto 10.
      * intros [?|(ks' & s'' & kp & p & [= <-] & Hs' & ?)]; [by left|right].
        rewrite Hs in Hs'. injection Hs' as <-. eauto.
    + rewrite (granted_superuser_or_raise _ _ DoesNotExist) by done.
      split; [by left|].
      intros [?|(ks' & s'' & kp & p & [= <-] & Hs' & _)]; [done|congruence].
  - rewrite (granted_superuser_or_raise _ _ (AttributeError "program"))
      by done.
    split; [by left|]. by intros [?|(ks' & s'' & kp & p & ? & _)].
Qed.

(** X11: the permissions follow the ownership hierarchy.  The object-level
    write permission of a slot is the one of its computer, and the one of a
    computer is the one of its program; the permission to create a slot
    under a computer is the object-level write permission of that computer;
    the object-level write permission of a classroom is the one of its
    school. *)
Theorem permissions_follow_the_hierarchy
    (db : DB) (schools : gmap Z School) (request : Request) :
  (∀ self kc c,
     computer self = Some kc → computers db !! kc = Some c →
     SlotPerm.has_object_write_permission db self request
     = ComputerPerm.has_object_write_permission db c request)
  ∧ (∀ c p,
       programs db !! computer_program c = Some p →
       ComputerPerm.has_object_write_permission db c request
       = inr (ProgramPerm.has_object_write_permission p request))
  ∧ (∀ x c,
       parser_kwargs request !! "computer_external_id" = Some x →
       objects_get computer_external_id (computers db) x = inr c →
       SlotPerm.has_create_permission db request
       = ComputerPerm.has_object_write_permission db c request)
  ∧ (∀ cl ks s,
       classroom_school cl = Some ks → schools !! ks = Some s →
       ClassroomPerm.has_object_write_permission db schools cl request
       = SchoolPerm.has_object_write_permission db s request).
Proof.
  split_and!.
  - intros self kc c Hc Hkc.
    unfold SlotPerm.has_object_write_permission,
      ComputerPerm.has_object_write_permission, related_nullable, related.
    rewrite Hc. simpl. by rewrite Hkc.
  - intros c p Hp.
    unfold ComputerPerm.has_object_write_permission,
      ProgramPerm.has_object_write_permission, related, superuser_or_director.
    rewrite Hp. by destruct (is_superuser _).
  - intros x c Hx Hget.
    unfold SlotPerm.has_create_permission, kwarg. rewrite Hx. simpl.
    by rewrite Hget.
  - intros cl ks s Hcl Hks.
    unfold ClassroomPerm.has_object_write_permission,
      SchoolPerm.has_object_write_permission, related_nullable, related.
    rewrite Hcl. simpl. by rewrite Hks.
Qed.

Lemma permissions_follow_the_hierarchy_witness :
  SlotPerm.has_object_write_permission db_village monday_10_12
    (request_of (Authenticated director))
  = ComputerPerm.has_object_write_permission db_village computer1
      (request_of (Authenticated director)).
Proof.
  pose proof (permissions_follow_the_hierarchy db_village ∅
                (request_of (Authenticated director))) as (Hslot & _).
  apply (Hslot monday_10_12 1 computer1); reflexivity.
Defined.

(** X12: an anonymous request is never granted a permission that depends
    on the user: not the creation of a program, school, classroom, computer
    or slot, and not the object-level write permission of any of them. *)
Theorem anonymous_is_never_granted
    (db : DB) (schools : gmap Z School) (kw : gmap string Z)
    (p : Program) (s : School) (cl : Classroom) (c : Computer) (self : Slot) :
  let request := mkRequest AnonymousUser kw in
  ProgramPerm.has_create_permission request = false
  ∧ ProgramPerm.has_object_write_permission p request = false
  ∧ ¬ granted (SchoolPerm.has_create_permission db request)
  ∧ ¬ granted (SchoolPerm.has_object_write_permission db s request)
  ∧ ¬ granted (ClassroomPerm.has_create_permission db schools request)
  ∧ ¬ granted (ClassroomPerm.has_object_write_permission db schools cl request)
  ∧ ¬ granted (ComputerPerm.has_create_permission db request)
  ∧ ¬ granted (ComputerPerm.has_object_write_permission db c request)
  ∧ ¬ granted (SlotPerm.has_create_permission db request)
  ∧ ¬ granted (SlotPerm.has_object_write_permission db self request).
Proof.
  intros request.
  assert (∀ (A B : Type) (m : Result A) (f : A → Result B) (r : B → Result Program),
    ¬ granted (x ← m; y ← f x; superuser_or_director request (r y)))
    as Hcreate.
  { intros A B m f r.
    apply bind_not_granted. intros x. apply bind_not_granted. intros y.
    apply anonymous_not_granted. }
  split_and!;
    [ done | done
    | apply Hcreate | apply anonymous_not_granted
    | apply Hcreate | apply anonymous_not_granted
    | apply Hcreate | apply anonymous_not_granted
    | apply Hcreate | apply anonymous_not_granted ].
Qed.

(** X13: the permission to create a school, a classroom, a computer or a
    slot reads the external id of the parent from the request before it
    looks at the user: for every user, superusers included, it raises
    [KeyError] when the request carries no external id of the parent.  The
    object-level write permissions, in contrast, return [True] for a
    superuser without reading any parent. *)
Theorem create_permission_needs_the_parent
    (db : DB) (schools : gmap Z School) (request : Request) :
  (parser_kwargs request !! "program_external_id" = None →
     SchoolPerm.has_create_permission db request
     = inl (KeyError "program_external_id")
     ∧ ComputerPerm.has_create_permission db request
       = inl (KeyError "program_external_id"))
  ∧ (parser_kwargs request !! "school_external_id" = None →
       ClassroomPerm.has_create_permission db schools request
       = inl (KeyError "school_external_id"))
  ∧ (parser_kwargs request !! "computer_external_id" = None →
       SlotPerm.has_create_permission db request
       = inl (KeyError "computer_external_id"))
  ∧ (is_superuser (user request) = true →
     ∀ (s : School) (cl : Classroom) (c : Computer) (self : Slot),
       SchoolPerm.has_object_write_permission db s request = inr true
       ∧ ClassroomPerm.has_object_write_permission db schools cl request
         = inr true
       ∧ ComputerPerm.has_object_write_permission db c request = inr true
       ∧ SlotPerm.has_object_write_permission db self request = inr true).
Proof.
  split_and!.
  - unfold SchoolPerm.has_create_permission,
      ComputerPerm.has_create_permission, kwarg. by intros ->.
  - unfold ClassroomPerm.has_create_permission, kwarg. by intros ->.
  - unfold SlotPerm.has_create_permission, kwarg. by intros ->.
  - intros Hsu s cl c self.
    unfold SchoolPerm.has_object_write_permission,
      ClassroomPerm.has_object_write_permission,
      ComputerPerm.has_object_write_permission,
      SlotPerm.has_object_write_permission, superuser_or_director.
    by rewrite Hsu.
Qed.

Lemma create_permission_needs_the_parent_witness :
  SlotPerm.has_create_permission db_village
    (mkRequest (Authenticated admin) ∅)
  = inl (KeyError "computer_external_id").
Proof.
  apply (create_permission_needs_the_parent db_village ∅
           (mkRequest (Authenticated admin) ∅)). reflexivity.
Defined.

(** X14: for a program without director, the object-level write
    permission of the program, of its computers and of the slots of those
    computers is [True] for a superuser and [False] for every other user,
    and none of the three raises. *)
Theorem program_without_director
    (db : DB) (p : Program) (kc : Z) (c : Computer) (self : Slot)
    (request : Request) :
  program_director p = None →
  computers db !! kc = Some c →
  programs db !! computer_program c = Some p →
  computer self = Some kc →
  ProgramPerm.has_object_write_permission p request
  = is_superuser (user request)
  ∧ ComputerPerm.has_object_write_permission db c request
    = inr (is_superuser (user request))
  ∧ SlotPerm.has_object_write_permission db self request
    = inr (is_superuser (user request)).
Proof.
  intros Hnone Hc Hp Hself.
  assert (user_eq (user request) (program_director p) = false) as Hne.
  { rewrite Hnone. by destruct (user request). }
  split_and!.
  - unfold ProgramPerm.has_object_write_permission.
    rewrite Hne. apply orb_false_r.
  - unfold ComputerPerm.has_object_write_permission, related. rewrite Hp.
    by apply superuser_or_director_no_director.
  - unfold SlotPerm.has_object_write_permission, related_nullable, related.
    rewrite Hself. simpl. rewrite Hc. simpl. rewrite Hp.
    by apply superuser_or_director_no_director.
Qed.

Lemma program_without_director_witness :
  SlotPerm.has_object_write_permission db_without_director monday_10_12
    (request_of (Authenticated director)) = inr false
  ∧ SlotPerm.has_object_write_permission db_without_director monday_10_12
      (request_of (Authenticated admin)) = inr true.
Proof.
  split.
  - apply (program_without_director db_without_director
             program_without_director_example 1 computer1 monday_10_12
             (request_of (Authenticated director))); reflexivity.
  - apply (program_without_director db_without_director
             program_without_director_example 1 computer1 monday_10_12
             (request_of (Authenticated admin))); reflexivity.
Defined.

(** X15: for a user who is not a superuser, the object-level write
    permission of a school without program raises the [AttributeError] of
    reading [program_director] from [None], the one of a classroom without
    school raises the [AttributeError] of reading [program] from [None],
    and the one of a classroom whose school has no program raises the
    former; none of them returns a boolean. *)
Theorem school_and_classroom_without_parent
    (db : DB) (schools : gmap Z School) (s : School) (cl : Classroom)
    (request : Request) :
  is_superuser (user request) = false →
  (school_program s = None →
   SchoolPerm.has_object_write_permission db s request
   = inl (AttributeError "program_director"))
  ∧ (classroom_school cl = None →
     ClassroomPerm.has_object_write_permission db schools cl request
     = inl (AttributeError "program"))
  ∧ (∀ ks s', classroom_school cl = Some ks → schools !! ks = Some s' →
       school_program s' = None →
       ClassroomPerm.has_object_write_permission db schools cl request
       = inl (AttributeError "program_director")).
Proof.
  intros Hsu.
  unfold SchoolPerm.has_object_write_permission,
    ClassroomPerm.has_object_write_permission, superuser_or_director,
    related_nullable, related.
  rewrite Hsu. split_and!.
  - by intros ->.
  - by intros ->.
  - intros ks s' -> Hs Hp. simpl. rewrite Hs. simpl. by rewrite Hp.
Qed.

Lemma school_and_classroom_without_parent_witness :
  SchoolPerm.has_object_write_permission db_village school_without_program
    (request_of (Authenticated director))
  = inl (AttributeError "program_director")
  ∧ ClassroomPerm.has_object_write_permission db_village ∅
      classroom_without_school (request_of (Authenticated director))
    = inl (AttributeError "program").
Proof.
  split.
  - apply (school_and_classroom_without_parent db_village ∅
             school_without_program classroom_without_school
             (request_of (Authenticated director))); reflexivity.
  - apply (school_and_classroom_without_parent db_village ∅
             school_without_program classroom_without_school
             (request_of (Authenticated director))); reflexivity.
Defined.

(** ** Deletions *)

Section Deletions.

Lemma Slot_delete_unfold k db :
  Slot_delete k db
  = (inr (match slots db !! k with Some _ => 1 | None => 0 end),
     set_associations
       ((λ a, if decide (slot a = Some k) then set_association_slot None a
              else a) <$> associations db)
       (set_slots (delete k (slots db)) (slot_seq db) db)).
Proof. done. Qed.

Lemma set_null_idemp (k : Z) (t : gmap Z StudentSlotAssociation) :
  let f := λ a, if decide (slot a = Some k) then set_association_slot None a
                else a in
  f <$> (f <$> t) = f <$> t.
Proof.
  intros f. rewrite <- map_fmap_compose. apply map_fmap_ext.
  intros i a _. unfold f. simpl. destruct (decide (slot a = Some k)); simpl.
  - done.
  - by rewrite decide_False.
Qed.

Lemma Computer_delete_cases k db :
  (∃ j row, slots db !! j = Some row ∧ computer row = Some k)
  ∧ Computer_delete k db = (inl ProtectedError, db)
  ∨ (∀ j row, slots db !! j = Some row → computer row ≠ Some k)
    ∧ Computer_delete k db
      = (inr (match computers db !! k with Some _ => 1 | None => 0 end),
         set_computers (delete k (computers db)) db).
Proof.
  unfold Computer_delete, mbind, M_bind, get_db, Slot_computer_on_delete.
  unfold on_delete_apply.
  destruct (existsb _ _) eqn:Hq.
  - left. split; [|done].
    apply existsb_rows in Hq as (j & row & Hj & Hc).
    apply bool_decide_eq_true in Hc. eauto.
  - right. split; [|by destruct db].
    intros j row Hj. eapply existsb_rows_false in Hq; [|exact Hj].
    by apply bool_decide_eq_false in Hq.
Qed.

Lemma Program_delete_cases k w :
  (∃ kc c, computers (campus_db w) !! kc = Some c ∧ computer_program c = k)
  ∧ Program_delete k w = (inl ProtectedError, w)
  ∨ (∀ kc c, computers (campus_db w) !! kc = Some c → computer_program c ≠ k)
    ∧ Program_delete k w
      = (inr (match programs (campus_db w) !! k with
              | Some _ => 1 | None => 0 end),
         mkCampus
           (set_programs (delete k (programs (campus_db w))) (campus_db w))
           ((λ s, if decide (school_program s = Some k)
                  then set_school_program None s else s) <$> schools w)
           (classrooms w)
           ((λ l, if decide (library_program l = Some k)
                  then set_library_program None l else l) <$> libraries w)).
Proof.
  unfold Program_delete, Computer_program_on_delete, School_program_on_delete,
    Library_program_on_delete, on_delete_apply.
  destruct (existsb _ _) eqn:Hq.
  - left. split; [|done].
    apply existsb_rows in Hq as (kc & c & Hkc & Hc).
    apply bool_decide_eq_true in Hc. injection Hc as Hc. eauto.
  - right. split; [|by destruct w as [[] ? ? ?]].
    intros kc c Hkc. eapply existsb_rows_false in Hq; [|exact Hkc].
    apply bool_decide_eq_false in Hq. congruence.
Qed.

End Deletions.

(** X16: with the foreign keys that this module declares, deleting a slot
    does not raise; afterwards the slot is gone, the other slots are as
    before, no association refers to the deleted slot, and every
    association keeps its student.  Deleting the same key again deletes
    nothing and changes nothing. *)
Theorem slot_delete_leaves_no_reference (db : DB) (k : Z) :
  let db' := (Slot_delete k db).2 in
  (Slot_delete k db).1
  = inr (match slots db !! k with Some _ => 1 | None => 0 end)
  ∧ slots db' !! k = None
  ∧ (∀ j, j ≠ k → slots db' !! j = slots db !! j)
  ∧ (∀ i a, associations db' !! i = Some a → slot a ≠ Some k)
  ∧ (∀ i, student <$> associations db' !! i = student <$> associations db !! i)
  ∧ (∀ i a, associations db !! i = Some a → slot a ≠ Some k →
            associations db' !! i = Some a)
  ∧ Slot_delete k db' = (inr 0, db').
Proof.
  intros db'. unfold db'. rewrite !Slot_delete_unfold. simpl. split_and!.
  - done.
  - apply lookup_delete_eq.
  - intros j Hj. by apply lookup_delete_ne.
  - intros i a. rewrite lookup_fmap. destruct (associations db !! i) as [a'|];
      [|done].
    simpl. intros [= <-]. by destruct (decide (slot a' = Some k)).
  - intros i. rewrite lookup_fmap. destruct (associations db !! i) as [a'|];
      [|done].
    simpl. by destruct (decide (slot a' = Some k)).
  - intros i a Hi Hne. rewrite lookup_fmap, Hi. simpl.
    by rewrite decide_False.
  - rewrite lookup_delete_eq, delete_delete_eq.
    by rewrite (set_null_idemp k (associations db)).
Qed.

(** X17: deleting a computer never changes a slot, whether the deletion
    is refused or not, and it keeps every slot's computer stored: if each
    slot's computer was stored before, it is stored afterwards. *)
Theorem computer_delete_keeps_slots (db : DB) (k : Z) :
  slot_computers_exist db →
  slots (Computer_delete k db).2 = slots db
  ∧ slot_computers_exist (Computer_delete k db).2.
Proof.
  intros Hrefs.
  destruct (Computer_delete_cases k db) as [[_ ->]|[Hnone ->]]; [done|].
  split; [done|]. intros j row kc Hj Hc. simpl in *.
  destruct (Hrefs j row kc Hj Hc) as [c Hkc]. exists c.
  rewrite lookup_delete_ne; [done|]. intros <-. by destruct (Hnone j row Hj).
Qed.

Lemma computer_delete_keeps_slots_witness :
  slots (Computer_delete 1 db_village).2 = slots db_village
  ∧ slot_computers_exist (Computer_delete 1 db_village).2.
Proof.
  apply (computer_delete_keeps_slots db_village 1).
  intros j row kc Hj Hc.
  assert (slots db_village
          = {[ 1 := set_slot_pk 1 (set_start_date today0 monday_10_12) ]})
    as Hslots by reflexivity.
  rewrite Hslots in Hj. apply lookup_singleton_Some in Hj as [_ <-].
  injection Hc as <-. by exists computer1.
Defined.

(** X18: [Computer.program] is protected: deleting a program that a stored
    computer refers to raises [ProtectedError] and changes nothing; and in
    every case, if the program of each computer was stored before the
    deletion, it is stored afterwards. *)
Theorem program_delete_is_protected (w : Campus) (k : Z) :
  (∀ kc c, computers (campus_db w) !! kc = Some c → computer_program c = k →
           Program_delete k w = (inl ProtectedError, w))
  ∧ (computer_programs_exist (campus_db w) →
     computer_programs_exist (campus_db (Program_delete k w).2)).
Proof.
  destruct (Program_delete_cases k w) as [[_ ->]|[Hnone ->]].
  - split; done.
  - split.
    + intros kc c Hkc Hc. by destruct (Hnone kc c Hkc).
    + intros Hrefs kc c Hkc. simpl in *.
      destruct (Hrefs kc c Hkc) as [p Hp]. exists p.
      rewrite lookup_delete_ne; [done|]. intros Heq.
      by destruct (Hnone kc c Hkc).
Qed.

Lemma program_delete_is_protected_witness :
  Program_delete 1 campus_village = (inl ProtectedError, campus_village).
Proof.
  pose proof (program_delete_is_protected campus_village 1) as [Hprot _].
  apply (Hprot 1 computer1); reflexivity.
Defined.

(** X19: when no computer refers to it, a program is deleted, and every
    school and library that referred to it is kept with a null [program].
    For such a school the object-level write permission then raises the
    [AttributeError] of reading [program_director] from [None] for every
    user who is not a superuser, the former director included. *)
Theorem program_delete_orphans_its_schools
    (w : Campus) (k ks : Z) (s : School) (request : Request) :
  (∀ kc c, computers (campus_db w) !! kc = Some c → computer_program c ≠ k) →
  schools w !! ks = Some s →
  school_program s = Some k →
  let w' := (Program_delete k w).2 in
  programs (campus_db w') !! k = None
  ∧ schools w' !! ks = Some (set_school_program None s)
  ∧ (∀ kl l, libraries w !! kl = Some l → library_program l = Some k →
             libraries w' !! kl = Some (set_library_program None l))
  ∧ (is_superuser (user request) = false →
     SchoolPerm.has_object_write_permission (campus_db w')
       (set_school_program None s) request
     = inl (AttributeError "program_director")).
Proof.
  intros Hnone Hs Hp w'. unfold w'.
  destruct (Program_delete_cases k w) as [[(kc & c & Hkc & Hc) _]|[_ ->]].
  { by destruct (Hnone kc c Hkc). }
  simpl. split_and!.
  - apply lookup_delete_eq.
  - rewrite lookup_fmap, Hs. simpl. by rewrite decide_True.
  - intros kl l Hl Hlp. rewrite lookup_fmap, Hl. simpl.
    by rewrite decide_True.
  - intros Hsu.
    unfold SchoolPerm.has_object_write_permission, superuser_or_director.
    by rewrite Hsu.
Qed.

Lemma program_delete_orphans_its_schools_witness :
  schools (Program_delete 1 campus_school_only).2 !! 1
  = Some (set_school_program None school1)
  ∧ SchoolPerm.has_object_write_permission
      (campus_db (Program_delete 1 campus_school_only).2)
      (set_school_program None school1) (request_of (Authenticated director))
    = inl (AttributeError "program_director").
Proof.
  pose proof (program_delete_orphans_its_schools campus_school_only 1 1
                school1 (request_of (Authenticated director)))
    as Hdel.
  destruct Hdel as (_ & Hschool & _ & Hperm).
  - intros kc c Hkc. simpl in Hkc. by rewrite lookup_empty in Hkc.
  - reflexivity.
  - reflexivity.
  - split; [exact Hschool|]. apply Hperm. reflexivity.
Defined.

(** X20: a computer can be deleted once its slots are: when the slot of
    key [j] is the only slot that refers to the computer [k], deleting the
    computer is refused, and after the slot was deleted it succeeds and
    removes the computer. *)
Theorem computer_delete_after_its_slot
    (db : DB) (k j : Z) (row : Slot) (c : Computer) :
  computers db !! k = Some c →
  slots db !! j = Some row →
  computer row = Some k →
  (∀ j' row', slots db !! j' = Some row' → computer row' = Some k → j' = j) →
  (Computer_delete k db).1 = inl ProtectedError
  ∧ (Computer_delete k (Slot_delete j db).2).1 = inr 1
  ∧ computers (Computer_delete k (Slot_delete j db).2).2 !! k = None.
Proof.
  intros Hk Hj Hc Honly. split.
  - destruct (Computer_delete_cases k db) as [[_ ->]|[Hnone _]]; [done|].
    by destruct (Hnone j row Hj).
  - destruct (Computer_delete_cases k (Slot_delete j db).2)
      as [[(j' & row' & Hj' & Hc') _]|[_ ->]].
    + rewrite Slot_delete_slots in Hj'.
      apply lookup_delete_Some in Hj' as [Hne Hj'].
      by destruct Hne; rewrite (Honly j' row' Hj' Hc').
    + simpl. rewrite Hk. split; [done|]. apply lookup_delete_eq.
Qed.

Lemma computer_delete_after_its_slot_witness :
  (Computer_delete 1 db_village).1 = inl ProtectedError
  ∧ (Computer_delete 1 (Slot_delete 1 db_village).2).1 = inr 1
  ∧ computers (Computer_delete 1 (Slot_delete 1 db_village).2).2 !! 1 = None.
Proof.
  apply (computer_delete_after_its_slot db_village 1 1
           (set_slot_pk 1 (set_start_date today0 monday_10_12)) computer1);
    try reflexivity.
  assert (slots db_village
          = {[ 1 := set_slot_pk 1 (set_start_date today0 monday_10_12) ]})
    as -> by reflexivity.
  by intros j' row' [-> _]%lookup_singleton_Some _.
Defined.
